(** * Mull: the mutation pipeline driver and the C/C++ junk detector

    A shallow embedding of

      - [lib/Driver.cpp]            ([Driver::Run], [Driver::AllButOne]),
      - [include/TestResult.h]      ([ExecutionResult], [MutationResult],
                                     [TestResult]),
      - [JunkDetection/CXX/CXXJunkDetector.cpp]
                                    ([CXXJunkDetector::isJunk] and the
                                     source-range visitors it runs),

    followed by the properties of the pipeline that the specification
    states about them.

    Conventions.  A C++ [assert] is modelled as it behaves in a build with
    assertions enabled: a failing [assert] ends the computation with
    [AssertionFailed].  A step the C++ standard leaves undefined ends it
    with [UndefinedBehaviour].  Member state is threaded explicitly through
    a state-and-error monad.  Everything that LLVM, Clang or a part of the
    project outside these three files provides is a field of a record of
    external operations ([Clang.ASTUnit], [Clang.SourceManager],
    [CXXJunkDetector.Frontend], [Driver.Collaborators]). *)

From Stdlib Require Import ZArith Lia.
From stdpp Require Import base option list strings gmap fin_maps numbers.

Local Open Scope string_scope.
Local Open Scope list_scope.
Local Open Scope Z_scope.

(** ** Errors and the state-and-error monad *)

Inductive error : Type :=
  | AssertionFailed (what : string)
  | UndefinedBehaviour (what : string).

Inductive result (A : Type) : Type :=
  | Ok (a : A)
  | Err (e : error).
Arguments Ok {A} a.
Arguments Err {A} e.

#[global] Instance result_ret : MRet result := fun _ a => Ok a.
#[global] Instance result_bind : MBind result := fun _ _ f r =>
  match r with
  | Ok a => f a
  | Err e => Err e
  end.
#[global] Instance result_fmap : FMap result := fun _ _ f r =>
  match r with
  | Ok a => Ok (f a)
  | Err e => Err e
  end.

(** [assert(c)] *)
Definition assert (c : bool) (what : string) : result unit :=
  if c then Ok tt else Err (AssertionFailed what).

(** A computation over a state [S] that may fail. *)
Definition M (S A : Type) : Type := S -> result (A * S).

Definition ret_M {S A} (a : A) : M S A := fun s => Ok (a, s).
Definition bind_M {S A B} (c : M S A) (k : A -> M S B) : M S B := fun s =>
  match c s with
  | Ok (a, s') => k a s'
  | Err e => Err e
  end.
Definition get_M {S} : M S S := fun s => Ok (s, s).
Definition lift_M {S A} (r : result A) : M S A := fun s =>
  match r with
  | Ok a => Ok (a, s)
  | Err e => Err e
  end.

#[global] Instance M_ret {S} : MRet (M S) := fun _ a => ret_M a.
#[global] Instance M_bind {S} : MBind (M S) := fun _ _ k c => bind_M c k.

(** ** The parts of Clang the junk detector uses *)

Module Clang.

(** 32-bit [unsigned] arithmetic. *)
Definition wrap32 (z : Z) : Z := z mod 2 ^ 32.

(** [clang::SourceLocation]: a 32-bit raw encoding whose top bit says
    "macro expansion"; the encoding 0 is the invalid location. *)
Record SourceLocation : Type := mkSourceLocation { getRawEncoding : Z }.

Definition MacroIDBit : Z := Z.shiftl 1 31.

Definition isFileID (l : SourceLocation) : bool :=
  Z.land (getRawEncoding l) MacroIDBit =? 0.
Definition isMacroID (l : SourceLocation) : bool :=
  negb (Z.land (getRawEncoding l) MacroIDBit =? 0).
Definition isValid (l : SourceLocation) : bool :=
  negb (getRawEncoding l =? 0).

(** [clang::SourceRange]; the default-constructed range has two invalid
    ends. *)
Record SourceRange : Type := mkSourceRange {
  getBegin : SourceLocation;
  getEnd : SourceLocation
}.

Definition SourceRange_default : SourceRange :=
  mkSourceRange (mkSourceLocation 0) (mkSourceLocation 0).

Definition range_isValid (r : SourceRange) : bool :=
  isValid (getBegin r) && isValid (getEnd r).
Definition range_isInvalid (r : SourceRange) : bool :=
  negb (range_isValid r).

Record FileEntry : Type := mkFileEntry {
  getName : string;
  file_isValid : bool
}.

(** [clang::SourceManager], as far as the detector observes it: the file
    and the offset a location decomposes to, and the files it knows, in
    the order [fileinfo_begin() .. fileinfo_end()] yields them. *)
Record SourceManager : Type := mkSourceManager {
  getFileID : SourceLocation -> Z;
  decomposedOffset : SourceLocation -> Z;
  fileinfo : list FileEntry
}.

(** [SourceManager::getFileOffset] returns [unsigned]. *)
Definition getFileOffset (sm : SourceManager) (l : SourceLocation) : Z :=
  wrap32 (decomposedOffset sm l).

Inductive BinaryOperatorKind : Type :=
  | BO_Mul | BO_Div | BO_Rem | BO_Add | BO_Sub | BO_Shl | BO_Shr
  | BO_LT | BO_GT | BO_LE | BO_GE | BO_EQ | BO_NE
  | BO_And | BO_Xor | BO_Or | BO_LAnd | BO_LOr
  | BO_Assign | BO_MulAssign | BO_DivAssign | BO_RemAssign
  | BO_AddAssign | BO_SubAssign | BO_Comma.

Inductive UnaryOperatorKind : Type :=
  | UO_PostInc | UO_PostDec | UO_PreInc | UO_PreDec
  | UO_AddrOf | UO_Deref | UO_Plus | UO_Minus | UO_Not | UO_LNot.

#[global] Instance BinaryOperatorKind_eq_dec : EqDecision BinaryOperatorKind.
Proof. solve_decision. Defined.
#[global] Instance UnaryOperatorKind_eq_dec : EqDecision UnaryOperatorKind.
Proof. solve_decision. Defined.

(** [BinaryOperator::isRelationalOp]: [<], [>], [<=], [>=]. *)
Definition isRelationalOp (opc : BinaryOperatorKind) : bool :=
  match opc with
  | BO_LT | BO_GT | BO_LE | BO_GE => true
  | _ => false
  end.

Definition isIncrementOp (opc : UnaryOperatorKind) : bool :=
  match opc with
  | UO_PreInc | UO_PostInc => true
  | _ => false
  end.

Definition isDecrementOp (opc : UnaryOperatorKind) : bool :=
  match opc with
  | UO_PreDec | UO_PostDec => true
  | _ => false
  end.

(** A node of the syntax tree, as the visitors see it: its class, its
    opcode and [getSourceRange()]. *)
Inductive Stmt : Type :=
  | BinaryOperator (opc : BinaryOperatorKind) (range : SourceRange)
  | UnaryOperator (opc : UnaryOperatorKind) (range : SourceRange)
  | OtherStmt.

(** [clang::ASTUnit]: its source manager, [ASTUnit::getLocation], and the
    nodes of the translation unit in the order in which
    [RecursiveASTVisitor::TraverseDecl] reaches them. *)
Record ASTUnit : Type := mkASTUnit {
  getSourceManager : SourceManager;
  getLocation : FileEntry -> Z -> Z -> SourceLocation;
  translationUnit : list Stmt
}.

End Clang.

(** ** The junk detector ([CXXJunkDetector.cpp]) *)

Module CXXJunkDetector.
Import Clang.

(** [mull::MutatorKind].  The detector distinguishes three mutators; every
    other enumerator takes the [default] branch of its [switch]. *)
Inductive MutatorKind : Type :=
  | ConditionalsBoundaryMutator
  | MathAddMutator
  | MathSubMutator
  | OtherMutator (name : string).

(** Modelled from the spec: [mull::SourceLocation], whose declaration is
    not among the sources.  "Either null (IR lacks debug metadata) or a
    (path, line, column) triple derived from IR debug info." *)
Inductive SourceLocation : Type :=
  | NullSourceLocation
  | FileLineColumn (filePath : string) (line column : Z).

Definition isNull (l : SourceLocation) : bool :=
  match l with
  | NullSourceLocation => true
  | FileLineColumn _ _ _ => false
  end.
Definition filePath (l : SourceLocation) : string :=
  match l with
  | NullSourceLocation => ""
  | FileLineColumn p _ _ => p
  end.
Definition line (l : SourceLocation) : Z :=
  match l with
  | NullSourceLocation => 0
  | FileLineColumn _ n _ => n
  end.
Definition column (l : SourceLocation) : Z :=
  match l with
  | NullSourceLocation => 0
  | FileLineColumn _ _ n => n
  end.

(** [point->getOriginalValue()]: an [llvm::Instruction], of which the
    detector reads [getModule()->getSourceFileName()], or another
    [llvm::Value], on which [dyn_cast<Instruction>] gives [nullptr]. *)
Inductive Value : Type :=
  | InstructionValue (sourceFileName : string)
  | OtherValue.

(** [mull::MutationPoint], as the detector reads it. *)
Record MutationPoint : Type := mkMutationPoint {
  getSourceLocation : SourceLocation;
  mutatorKind : MutatorKind;
  getOriginalValue : Value
}.

(** [clang::tooling::CompileCommand] and [CompilationDatabase]. *)
Record CompileCommand : Type := mkCompileCommand {
  CommandLine : list string
}.

Record CompilationDatabase : Type := mkCompilationDatabase {
  getCompileCommands : string -> list CompileCommand
}.

(** What the detector calls outside its own file. *)
Record Frontend : Type := mkFrontend {
  (** [clang::ASTUnit::LoadFromCommandLine]; [None] is [nullptr] *)
  LoadFromCommandLine : list string -> option ASTUnit;
  (** [llvm::sys::path::filename] *)
  path_filename : string -> string
}.

(** The members of [CXXJunkDetector].  [astUnits] maps a source file to
    the owning pointer stored for it, which may be null.  The mutex that
    guards [astUnits] has no effect on a single thread and is left out. *)
Record Detector : Type := mkDetector {
  compdb : option CompilationDatabase;
  compilationFlags : list string;
  astUnits : gmap string (option ASTUnit)
}.

Definition set_astUnits (f : gmap string (option ASTUnit) -> gmap string (option ASTUnit))
    (d : Detector) : Detector :=
  mkDetector (compdb d) (compilationFlags d) (f (astUnits d)).

(** *** [locationInRange] *)
Definition locationInRange (sourceManager : SourceManager)
    (range : SourceRange) (location : Clang.SourceLocation) : result bool :=
  if isFileID location then
    _ ← assert (isValid location) "mutantLocation.isValid()";
    _ ← assert (isValid (getBegin range)) "begin.isValid()";
    let sameSourceFile :=
      getFileID sourceManager location =? getFileID sourceManager (getBegin range) in
    let mutantOffset := getFileOffset sourceManager location in
    let beginOffset := getFileOffset sourceManager (getBegin range) in
    let endOffset := getFileOffset sourceManager (getEnd range) in
    let inRange := (mutantOffset >=? beginOffset) && (mutantOffset <=? endOffset) in
    Ok (sameSourceFile && inRange)
  else Ok false.

(** The length of a range, in [unsigned] arithmetic. *)
Definition rangeLength (sourceManager : SourceManager) (r : SourceRange) : Z :=
  wrap32 (getFileOffset sourceManager (getEnd r)
          - getFileOffset sourceManager (getBegin r)).

(** *** [smallestSourceRange] *)
Definition smallestSourceRange (sourceManager : SourceManager)
    (first second : SourceRange) : SourceRange :=
  if range_isInvalid first then second
  else if range_isInvalid second then first
  else
    let firstLength := rangeLength sourceManager first in
    let secondLength := rangeLength sourceManager second in
    if firstLength <? secondLength then first
    else if secondLength <? firstLength then second
    else first.

(** *** [SearchInstructionVisitor] *)
Record SearchInstructionVisitor : Type := mkSearchInstructionVisitor {
  sourceManager : SourceManager;
  sourceLocation : Clang.SourceLocation;
  sourceRange : SourceRange
}.

Definition SearchInstructionVisitor_new (sm : SourceManager)
    (l : Clang.SourceLocation) : SearchInstructionVisitor :=
  mkSearchInstructionVisitor sm l SourceRange_default.

Definition visitRangeWithLocation (v : SearchInstructionVisitor)
    (range : SourceRange) : result SearchInstructionVisitor :=
  inRange ← locationInRange (sourceManager v) range (sourceLocation v);
  if inRange : bool then
    Ok (mkSearchInstructionVisitor (sourceManager v) (sourceLocation v)
          (smallestSourceRange (sourceManager v) (sourceRange v) range))
  else Ok v.

Definition foundRange (v : SearchInstructionVisitor) : bool :=
  range_isValid (sourceRange v).

(** *** The three visitors

    [RecursiveASTVisitor] calls [VisitBinaryOperator] on every
    [BinaryOperator] node and [VisitUnaryOperator] on every
    [UnaryOperator] node; a visitor that does not define one of them
    inherits the one that does nothing.  All of them return [true], so the
    traversal never stops early. *)

Record Visitor : Type := mkVisitor {
  VisitBinaryOperator : SearchInstructionVisitor -> BinaryOperatorKind ->
    SourceRange -> result SearchInstructionVisitor;
  VisitUnaryOperator : SearchInstructionVisitor -> UnaryOperatorKind ->
    SourceRange -> result SearchInstructionVisitor
}.

Definition ConditionalsBoundaryVisitor : Visitor := {|
  VisitBinaryOperator visitor opc range :=
    if negb (isRelationalOp opc) then Ok visitor
    else visitRangeWithLocation visitor range;
  VisitUnaryOperator visitor _ _ := Ok visitor
|}.

Definition MathAddVisitor : Visitor := {|
  VisitBinaryOperator visitor opc range :=
    visitor ← (if decide (opc = BO_Add)
               then visitRangeWithLocation visitor range else Ok visitor);
    if decide (opc = BO_AddAssign)
    then visitRangeWithLocation visitor range else Ok visitor;
  VisitUnaryOperator visitor opc range :=
    if isIncrementOp opc
    then visitRangeWithLocation visitor range else Ok visitor
|}.

Definition MathSubVisitor : Visitor := {|
  VisitBinaryOperator visitor opc range :=
    visitor ← (if decide (opc = BO_Sub)
               then visitRangeWithLocation visitor range else Ok visitor);
    if decide (opc = BO_SubAssign)
    then visitRangeWithLocation visitor range else Ok visitor;
  VisitUnaryOperator visitor opc range :=
    if isDecrementOp opc
    then visitRangeWithLocation visitor range else Ok visitor
|}.

Definition visitStmt (V : Visitor) (visitor : SearchInstructionVisitor)
    (node : Stmt) : result SearchInstructionVisitor :=
  match node with
  | BinaryOperator opc range => VisitBinaryOperator V visitor opc range
  | UnaryOperator opc range => VisitUnaryOperator V visitor opc range
  | OtherStmt => Ok visitor
  end.

(** [visitor.TraverseDecl(ast->getASTContext().getTranslationUnitDecl())] *)
Fixpoint TraverseDecl (V : Visitor) (visitor : SearchInstructionVisitor)
    (nodes : list Stmt) : result SearchInstructionVisitor :=
  match nodes with
  | [] => Ok visitor
  | node :: rest =>
      visitor ← visitStmt V visitor node;
      TraverseDecl V visitor rest
  end.

(** [foundMutant] of each visitor is [foundRange] of its
    [SearchInstructionVisitor]. *)
Definition foundMutant (visitor : SearchInstructionVisitor) : bool :=
  foundRange visitor.

(** *** [commandLineArguments] *)

(** [assert(commands.size() == 1); return commands.front().CommandLine;] *)
Definition frontCommandLine (commands : list CompileCommand) : result (list string) :=
  _ ← assert (bool_decide (length commands = 1%nat)) "commands.size() == 1";
  match commands with
  | front :: _ => Ok (CommandLine front)
  | [] => Err (UndefinedBehaviour "front() of an empty vector")
  end.

Definition commandLineArguments (F : Frontend) (d : Detector)
    (sourceFile : string) : result (list string) :=
  match compdb d with
  | None => Ok (compilationFlags d)
  | Some db =>
      match getCompileCommands db sourceFile with
      | [] =>
          let filename := path_filename F sourceFile in
          match getCompileCommands db filename with
          | [] => Ok (compilationFlags d)
          | commands => frontCommandLine commands
          end
      | commands => frontCommandLine commands
      end
  end.

(** *** [findAST] *)

(** The loop of [findAST] over [argsForFile].  At ["-c"] the iterator is
    advanced once, once more unless it is at the end, and a third time by
    the increment of the [for] statement that [continue] jumps to: ["-c"]
    and the two arguments after it are left out, and the iterator is moved
    past the end when fewer than two arguments follow ["-c"]. *)
Fixpoint cutCompileOnly (argsForFile : list string) : result (list string) :=
  match argsForFile with
  | [] => Ok []
  | arg :: rest =>
      if bool_decide (arg = "-c") then
        match rest with
        | _ :: _ :: rest' => cutCompileOnly rest'
        | _ => Err (UndefinedBehaviour "iterator incremented past end()")
        end
      else
        args ← cutCompileOnly rest;
        Ok (arg :: args)
  end.

Definition findAST (F : Frontend) (point : MutationPoint)
    : M Detector (option ASTUnit) := fun d =>
  _ ← assert (negb (isNull (getSourceLocation point)))
        "!point->getSourceLocation().isNull()";
  match getOriginalValue point with
  | OtherValue => Ok (None, d)
  | InstructionValue sourceFile =>
      match astUnits d !! sourceFile with
      | Some ast => Ok (ast, d)
      | None =>
          argsForFile ← commandLineArguments F d sourceFile;
          args ← cutCompileOnly argsForFile;
          let args := "mull-cxx" :: args ++ [sourceFile] in
          let ast := LoadFromCommandLine F args in
          Ok (ast, set_astUnits (insert sourceFile ast) d)
      end
  end.

(** *** [findFileEntry] *)
Fixpoint firstFileNamed (filePath : string) (files : list FileEntry)
    : option FileEntry :=
  match files with
  | [] => None
  | file :: rest =>
      if bool_decide (getName file = filePath) then Some file
      else firstFileNamed filePath rest
  end.

Definition findFileEntry (ast : option ASTUnit) (point : MutationPoint)
    : result (option FileEntry) :=
  match ast with
  | None => Err (AssertionFailed "ast")
  | Some ast =>
      _ ← assert (negb (isNull (getSourceLocation point)))
            "!point->getSourceLocation().isNull()";
      let sourceManager := getSourceManager ast in
      let filePath := filePath (getSourceLocation point) in
      Ok (firstFileNamed filePath (fileinfo sourceManager))
  end.

(** *** [isJunkBoundaryConditional], [isJunkMathAdd], [isJunkMathSub]

    The three functions differ only in the visitor they construct. *)
Definition isJunkWith (V : Visitor) (F : Frontend) (point : MutationPoint)
    (mutantLocation : SourceLocation) : M Detector bool := fun d =>
  '(ast, d) ← findAST F point d;
  file ← findFileEntry ast point;
  match ast, file with
  | Some ast, Some file =>
      _ ← assert (file_isValid file) "file->isValid()";
      let location := getLocation ast file (line mutantLocation) (column mutantLocation) in
      _ ← assert (isValid location) "location.isValid()";
      let visitor := SearchInstructionVisitor_new (getSourceManager ast) location in
      visitor ← TraverseDecl V visitor (translationUnit ast);
      Ok (negb (foundMutant visitor), d)
  | _, _ => Err (AssertionFailed "file")
  end.

Definition isJunkBoundaryConditional := isJunkWith ConditionalsBoundaryVisitor.
Definition isJunkMathAdd := isJunkWith MathAddVisitor.
Definition isJunkMathSub := isJunkWith MathSubVisitor.

(** *** [isJunk] *)
Definition isJunk (F : Frontend) (point : MutationPoint) : M Detector bool :=
  let sourceLocation := getSourceLocation point in
  if isNull sourceLocation then mret true
  else
    match mutatorKind point with
    | ConditionalsBoundaryMutator => isJunkBoundaryConditional F point sourceLocation
    | MathAddMutator => isJunkMathAdd F point sourceLocation
    | MathSubMutator => isJunkMathSub F point sourceLocation
    | OtherMutator _ => mret false
    end.

(** *** Vocabulary of the specification of the detector *)

(** The visitor that [isJunk] runs for a mutator kind. *)
Definition visitorFor (kind : MutatorKind) : option Visitor :=
  match kind with
  | ConditionalsBoundaryMutator => Some ConditionalsBoundaryVisitor
  | MathAddMutator => Some MathAddVisitor
  | MathSubMutator => Some MathSubVisitor
  | OtherMutator _ => None
  end.

(** The source range of the operator-specific kind at a node, in the words
    of the specification: a relational binary operator for
    [ConditionalsBoundary]; [+], [+=] or [++] for [MathAdd]; [-], [-=] or
    [--] for [MathSub]. *)
Definition searchedRange (kind : MutatorKind) (node : Stmt) : option SourceRange :=
  match kind, node with
  | ConditionalsBoundaryMutator, BinaryOperator opc range =>
      if isRelationalOp opc then Some range else None
  | MathAddMutator, BinaryOperator opc range =>
      match opc with
      | BO_Add | BO_AddAssign => Some range
      | _ => None
      end
  | MathAddMutator, UnaryOperator opc range =>
      match opc with
      | UO_PreInc | UO_PostInc => Some range
      | _ => None
      end
  | MathSubMutator, BinaryOperator opc range =>
      match opc with
      | BO_Sub | BO_SubAssign => Some range
      | _ => None
      end
  | MathSubMutator, UnaryOperator opc range =>
      match opc with
      | UO_PreDec | UO_PostDec => Some range
      | _ => None
      end
  | _, _ => None
  end.

Definition operatorRanges (kind : MutatorKind) (nodes : list Stmt) : list SourceRange :=
  omap (searchedRange kind) nodes.

(** "The source range contains the point": the point is a file location
    of the file the range begins in, and its offset lies between the
    offsets of the two ends of the range. *)
Definition containsLocation (sm : SourceManager) (location : Clang.SourceLocation)
    (range : SourceRange) : bool :=
  isFileID location
  && (getFileID sm location =? getFileID sm (getBegin range))
  && (getFileOffset sm (getBegin range) <=? getFileOffset sm location)
  && (getFileOffset sm location <=? getFileOffset sm (getEnd range)).

(** The ranges among [ranges] that contain the point, in their order. *)
Definition candidates (sm : SourceManager) (location : Clang.SourceLocation)
    (ranges : list SourceRange) : list SourceRange :=
  List.filter (containsLocation sm location) ranges.

(** The mutator kinds for which [isJunk] searches the source. *)
Definition searchedKinds : list MutatorKind :=
  [ConditionalsBoundaryMutator; MathAddMutator; MathSubMutator].

(** "Length (end offset minus begin offset)". *)
Definition spanLength (sm : SourceManager) (range : SourceRange) : Z :=
  getFileOffset sm (getEnd range) - getFileOffset sm (getBegin range).

(** [range] is the tightest of [candidates], and the first of the
    tightest: nothing in the list is shorter, and everything before it is
    strictly longer. *)
Definition tightestFirst (sm : SourceManager) (candidates : list SourceRange)
    (range : SourceRange) : Prop :=
  exists i : nat,
    candidates !! i = Some range /\
    forall (j : nat) (other : SourceRange), candidates !! j = Some other ->
      spanLength sm range <= spanLength sm other /\
      ((j < i)%nat -> spanLength sm range < spanLength sm other).

(** The ranges a [SearchInstructionVisitor] is shown, one after the other. *)
Fixpoint visitRanges (visitor : SearchInstructionVisitor)
    (ranges : list SourceRange) : result SearchInstructionVisitor :=
  match ranges with
  | [] => Ok visitor
  | range :: rest =>
      visitor ← visitRangeWithLocation visitor range;
      visitRanges visitor rest
  end.

(** *** [getCompilationDatabase], [getCompilationFlags] and the constructor *)

(** [clang::tooling::CompilationDatabase::loadFromDirectory]: the database,
    or the error message it sets when it returns [nullptr]. *)
Definition DatabaseLoader : Type := string -> CompilationDatabase + string.

(** The line feed, character 10. *)
Definition lineFeed : Ascii.ascii :=
  Ascii.Ascii false true false true false false false false.

(** [getCompilationDatabase].  The second component is what the function
    writes to [Logger::error()]: the error, a colon and a blank, the
    directory and a line feed. *)
Definition getCompilationDatabase (loadFromDirectory : DatabaseLoader)
    (compdbDirectory : string) : option CompilationDatabase * list string :=
  if bool_decide (compdbDirectory = "") then (None, [])
  else
    match loadFromDirectory compdbDirectory with
    | inl compdb => (Some compdb, [])
    | inr error =>
        (None, [String.append error
                  (String.append ": "
                     (String.append compdbDirectory (String lineFeed "")))])
    end.

(** [std::istream_iterator<std::string>] over a string stream: each
    extraction skips white space (the six characters of [isspace] in the
    "C" locale) and takes the characters up to the next white space or the
    end of the input; the iteration ends when nothing is left to take.
    [token] holds the characters taken so far for the current token. *)
Fixpoint extractTokens (token : string) (input : string) : list string :=
  match input with
  | EmptyString => if bool_decide (token = "") then [] else [token]
  | String c rest =>
      if Ascii.is_space c then
        (if bool_decide (token = "") then [] else [token])
        ++ extractTokens "" rest
      else extractTokens (String.append token (String c "")) rest
  end.

(** [getCompilationFlags] *)
Definition getCompilationFlags (flags : string) : list string :=
  if bool_decide (flags = "") then []
  else extractTokens "" flags.

(** The two fields of [JunkDetectionConfig] that the constructor reads. *)
Record JunkDetectionConfig : Type := mkJunkDetectionConfig {
  cxxCompDBDirectory : string;
  cxxCompilationFlags : string
}.

(** [CXXJunkDetector::CXXJunkDetector]: the detector, and what was written
    to the error log while it was built. *)
Definition CXXJunkDetector_new (loadFromDirectory : DatabaseLoader)
    (config : JunkDetectionConfig) : Detector * list string :=
  let '(compdb, errors) :=
    getCompilationDatabase loadFromDirectory (cxxCompDBDirectory config) in
  (mkDetector compdb (getCompilationFlags (cxxCompilationFlags config)) ∅,
   errors).

(** A string without white space, and the strings of a list put one after
    the other with one blank between them. *)
Fixpoint hasNoSpace (s : string) : bool :=
  match s with
  | EmptyString => true
  | String c rest => negb (Ascii.is_space c) && hasNoSpace rest
  end.

Definition isWord (s : string) : Prop := s <> "" /\ hasNoSpace s = true.

(** A string with its white space taken out, and the strings of a list
    put one after the other with nothing between them. *)
Fixpoint removeSpaces (s : string) : string :=
  match s with
  | EmptyString => EmptyString
  | String c rest =>
      if Ascii.is_space c then removeSpaces rest else String c (removeSpaces rest)
  end.

Fixpoint isSpaces (s : string) : bool :=
  match s with
  | EmptyString => true
  | String c rest => Ascii.is_space c && isSpaces rest
  end.

Fixpoint joinAll (words : list string) : string :=
  match words with
  | [] => ""
  | word :: rest => String.append word (joinAll rest)
  end.

(** The blank, character 32. *)
Definition blank : Ascii.ascii :=
  Ascii.Ascii false false false false false true false false.

Fixpoint joinWithBlanks (words : list string) : string :=
  match words with
  | [] => ""
  | [word] => word
  | word :: rest => String.append word (String blank (joinWithBlanks rest))
  end.

End CXXJunkDetector.

(** ** Test results ([TestResult.h]) *)

Module TestResult.

Inductive ExecutionStatus : Type :=
  | Invalid
  | Failed
  | Passed.

Record ExecutionResult : Type := mkExecutionResult {
  Status : ExecutionStatus;
  RunningTime : Z
}.

Record MutationResult (MutationPoint : Type) : Type := mkMutationResult {
  getExecutionResult : ExecutionResult;
  getMutationPoint : MutationPoint
}.

Record TestResult (Test MutationPoint : Type) : Type := mkTestResult {
  (** Result of execution of a test without any mutations applied *)
  getOriginalTestResult : ExecutionResult;
  TestPtr : Test;
  getMutationResults : list (MutationResult MutationPoint)
}.

End TestResult.

(** ** The driver ([Driver.cpp]) *)

Module Driver.

Section Driver.

(** The contents of an [llvm::Module], the native code of an object file,
    and the values handed around by the test finder. *)
Context {IR Code Test Function MutationPoint MutationOperator : Type}.

(** An [llvm::Module *] that points into [Ctx]: the position of the module
    in it.  Every module is owned by [Ctx] from the iteration that loads
    it to the end of [Run], when [Ctx] and its modules are destroyed.  The
    keys that an earlier [Run] left in [InnerCache] are then pointers to
    modules that no longer exist; identifying a pointer with a position
    says that a later [Run] is given the addresses of the earlier one
    again, which the allocator may do or not.  The properties below that
    depend on the keys are stated for [Driver_new], where no such key
    exists. *)
Definition ModulePtr : Type := nat.

(** An [llvm::object::ObjectFile *]: the object it points to, identified
    by the call of the compiler that allocated it (the number of objects
    compiled before it), and the code of that object. *)
Record ObjectFile : Type := mkObjectFile {
  allocation : nat;
  code : Code
}.

(** What [Run] calls outside [Driver.cpp]. *)
Record Collaborators : Type := mkCollaborators {
  (** [Loader.loadModuleAtPath]; [None] is [nullptr] *)
  loadModuleAtPath : string -> option IR;
  (** [Compiler.CompilerModule], on the current contents of a module *)
  CompilerModule : IR -> Code;
  (** [SimpleTestFinder], which reads the modules of [Ctx] *)
  findTests : list IR -> list Test;
  findTestees : list IR -> Test -> list Function;
  findMutationPoints : list IR -> list MutationOperator -> Function -> list MutationPoint;
  (** [Testee->getParent()] *)
  getParent : Function -> ModulePtr;
  (** [MutationPoint::applyMutation] and [revertMutation], which edit the
      modules in place *)
  applyMutation : MutationPoint -> list IR -> list IR;
  revertMutation : MutationPoint -> list IR -> list IR;
  (** the [AddMutationOperator] that [Run] registers *)
  MutOp : MutationOperator
}.

(** What [Run] does that is visible from outside, in the order it happens.
    [Runner.runTest] returns nothing that [Run] reads. *)
Inductive Event : Type :=
  | Compiled (module : ModulePtr) (object : ObjectFile)
  | Applied (point : MutationPoint)
  | Reverted (point : MutationPoint)
  | RanTest (test : Test) (objects : list ObjectFile).

(** The member [InnerCache], the local [Ctx], the number of objects
    compiled so far and the events so far. *)
Record State : Type := mkState {
  InnerCache : gmap ModulePtr ObjectFile;
  Ctx : list IR;
  compiledSoFar : nat;
  Log : list Event
}.

(** A driver that has just been constructed. *)
Definition Driver_new : State := mkState ∅ [] 0%nat [].

Variable C : Collaborators.

Definition emit (e : Event) : M State unit := fun st =>
  Ok (tt, mkState (InnerCache st) (Ctx st) (compiledSoFar st) (Log st ++ [e])).

Definition setCtx (f : list IR -> list IR) : M State unit := fun st =>
  Ok (tt, mkState (InnerCache st) (f (Ctx st)) (compiledSoFar st) (Log st)).

(** [Compiler.CompilerModule(Module)] on a module with contents [ir]. *)
Definition compile (module : ModulePtr) (ir : IR) : M State ObjectFile := fun st =>
  let object := mkObjectFile (compiledSoFar st) (CompilerModule C ir) in
  Ok (object, mkState (InnerCache st) (Ctx st) (S (compiledSoFar st))
                (Log st ++ [Compiled module object])).

(** [InnerCache.insert(std::make_pair(Module, ...))]: an entry whose key
    is present already is left as it is. *)
Definition InnerCache_insert (module : ModulePtr) (object : ObjectFile)
    : M State unit := fun st =>
  let cache :=
    match InnerCache st !! module with
    | Some _ => InnerCache st
    | None => <[module := object]> (InnerCache st)
    end in
  Ok (tt, mkState cache (Ctx st) (compiledSoFar st) (Log st)).

(** The first loop of [Run]. *)
Fixpoint loadModules (paths : list string) : M State unit :=
  match paths with
  | [] => mret tt
  | ModulePath :: rest =>
      OwnedModule ← lift_M (match loadModuleAtPath C ModulePath with
                            | Some m => Ok m
                            | None => Err (AssertionFailed "Can't load module")
                            end);
      st ← get_M;
      let Module := length (Ctx st) in
      ObjectFile ← compile Module OwnedModule;
      _ ← InnerCache_insert Module ObjectFile;
      _ ← setCtx (fun ctx => ctx ++ [OwnedModule]);
      loadModules rest
  end.

(** [Driver::AllButOne] *)
Definition AllButOne (One : ModulePtr) (cache : gmap ModulePtr ObjectFile)
    : list ObjectFile :=
  omap (fun CachedEntry : ModulePtr * ObjectFile =>
          if decide (One ≠ CachedEntry.1) then Some CachedEntry.2 else None)
       (map_to_list cache).

(** The body of the innermost loop.  [ObjectFiles] is declared in the
    enclosing loop and keeps what is pushed onto it.  [Mutant], which owns
    the object, ends with the iteration; the pointer that was pushed
    stays in [ObjectFiles]. *)
Definition mutate (test : Test) (Testee : Function)
    (ObjectFiles : list ObjectFile) (point : MutationPoint)
    : M State (list ObjectFile) :=
  _ ← setCtx (applyMutation C point);
  _ ← emit (Applied point);
  st ← get_M;
  ir ← lift_M (match Ctx st !! getParent C Testee with
               | Some ir => Ok ir
               | None => Err (UndefinedBehaviour "Testee->getParent() is not in Ctx")
               end);
  Mutant ← compile (getParent C Testee) ir;
  let ObjectFiles := ObjectFiles ++ [Mutant] in
  _ ← setCtx (revertMutation C point);
  _ ← emit (Reverted point);
  _ ← emit (RanTest test ObjectFiles);
  mret ObjectFiles.

Fixpoint forMutationPoints (test : Test) (Testee : Function)
    (ObjectFiles : list ObjectFile) (points : list MutationPoint)
    : M State unit :=
  match points with
  | [] => mret tt
  | point :: rest =>
      ObjectFiles ← mutate test Testee ObjectFiles point;
      forMutationPoints test Testee ObjectFiles rest
  end.

Definition forTestee (MutationOperators : list MutationOperator)
    (test : Test) (Testee : Function) : M State unit :=
  st ← get_M;
  let ObjectFiles := AllButOne (getParent C Testee) (InnerCache st) in
  forMutationPoints test Testee ObjectFiles
    (findMutationPoints C (Ctx st) MutationOperators Testee).

Fixpoint forTestees (MutationOperators : list MutationOperator)
    (test : Test) (testees : list Function) : M State unit :=
  match testees with
  | [] => mret tt
  | Testee :: rest =>
      _ ← forTestee MutationOperators test Testee;
      forTestees MutationOperators test rest
  end.

Definition forTest (MutationOperators : list MutationOperator)
    (test : Test) : M State unit :=
  st ← get_M;
  forTestees MutationOperators test (findTestees C (Ctx st) test).

Fixpoint forTests (MutationOperators : list MutationOperator)
    (tests : list Test) : M State unit :=
  match tests with
  | [] => mret tt
  | test :: rest =>
      _ ← forTest MutationOperators test;
      forTests MutationOperators rest
  end.

(** The loops of [Run] after the modules are loaded. *)
Definition runMutants : M State unit :=
  let MutationOperators := [MutOp C] in
  st ← get_M;
  forTests MutationOperators (findTests C (Ctx st)).

(** [Driver::Run], for the bitcode paths of [Cfg]. *)
Definition Run (BitcodePaths : list string) : M State unit :=
  _ ← setCtx (fun _ => []);
  _ ← loadModules BitcodePaths;
  runMutants.

(** *** Vocabulary of the specification of the driver *)

(** The modules that the paths of the configuration load. *)
Definition loadAll (BitcodePaths : list string) : option (list IR) :=
  mapM (loadModuleAtPath C) BitcodePaths.

(** The baseline object set: the objects in the cache. *)
Definition baselineObjects (cache : gmap ModulePtr ObjectFile) : list ObjectFile :=
  (map_to_list cache).*2.

(** The mutation points of a testee and of a test, in the order in which
    the test finder produces them. *)
Definition pointsOfTestee (ctx : list IR) (Testee : Function) : list MutationPoint :=
  findMutationPoints C ctx [MutOp C] Testee.

Definition pointsOfTest (ctx : list IR) (test : Test) : list MutationPoint :=
  flat_map (pointsOfTestee ctx) (findTestees C ctx test).

(** The mutation points behave on the modules [ctx]: reverting a point
    undoes applying it, and the parent of its testee is one of the
    modules while it is applied. *)
Definition pointBehaves (ctx : list IR) (Testee : Function)
    (point : MutationPoint) : Prop :=
  revertMutation C point (applyMutation C point ctx) = ctx /\
  is_Some (applyMutation C point ctx !! getParent C Testee).

Definition pointsBehave (ctx : list IR) : Prop :=
  Forall (fun test =>
    Forall (fun Testee =>
      Forall (pointBehaves ctx Testee) (pointsOfTestee ctx Testee))
      (findTestees C ctx test))
    (findTests C ctx).

(** The edits of the modules in a log. *)
Definition isEdit (e : Event) : bool :=
  match e with
  | Applied _ | Reverted _ => true
  | _ => false
  end.

Definition editsOf (log : list Event) : list Event := List.filter isEdit log.

(** The runs of tests in a log: the test and the objects it was run on. *)
Definition runsOf (log : list Event) : list (Test * list ObjectFile) :=
  omap (fun e => match e with
                 | RanTest test objects => Some (test, objects)
                 | _ => None
                 end) log.

(** The cache of a new driver while it loads: so far one object was
    compiled per module of [Ctx], and the entry of each module is the
    object compiled from it. *)
Definition cacheOfCtx (st : State) : Prop :=
  compiledSoFar st = length (Ctx st) /\
  forall module : ModulePtr,
    InnerCache st !! module =
      (fun ir => mkObjectFile module (CompilerModule C ir)) <$> Ctx st !! module.

(** The modules compiled in a log, in the order of the calls of the
    compiler. *)
Definition compilesOf (log : list Event) : list ModulePtr :=
  omap (fun e => match e with
                 | Compiled module _ => Some module
                 | _ => None
                 end) log.

(** The points applied in a log, in the order of the calls. *)
Definition appliedOf (log : list Event) : list MutationPoint :=
  omap (fun e => match e with
                 | Applied point => Some point
                 | _ => None
                 end) log.

(** [point] is processed for [Testee] and [test] somewhere in [events]:
    four events follow one another without anything between them, the
    point is applied, the parent of the testee is compiled to [Mutant],
    the point is reverted, and the test is run on a list of objects that
    ends with [Mutant]; and the code of [Mutant] is what the compiler
    makes of the parent as it is in [ctx] with the point applied. *)
Definition processedIn (ctx : list IR) (test : Test) (Testee : Function)
    (point : MutationPoint) (events : list Event) : Prop :=
  exists (ir : IR) (Mutant : ObjectFile) (before : list ObjectFile)
         (earlier later : list Event),
    applyMutation C point ctx !! getParent C Testee = Some ir /\
    code Mutant = CompilerModule C ir /\
    events =
      earlier ++
      [ Applied point; Compiled (getParent C Testee) Mutant; Reverted point;
        RanTest test (before ++ [Mutant]) ]
      ++ later.

Definition applyThenRevert (point : MutationPoint) : list Event :=
  [Applied point; Reverted point].

(** The events of the innermost loop over [points], entered with
    [ObjectFiles]: for each point the mutation is applied, the parent of
    the testee is compiled to a fresh object, the mutation is reverted,
    and the test is run on the objects collected so far. *)
Inductive pointsLog (test : Test) (Testee : Function)
    : list ObjectFile -> list MutationPoint -> list Event -> Prop :=
  | pointsLog_nil ObjectFiles :
      pointsLog test Testee ObjectFiles [] []
  | pointsLog_cons ObjectFiles point rest Mutant events :
      pointsLog test Testee (ObjectFiles ++ [Mutant]) rest events ->
      pointsLog test Testee ObjectFiles (point :: rest)
        ([Applied point; Compiled (getParent C Testee) Mutant;
          Reverted point; RanTest test (ObjectFiles ++ [Mutant])] ++ events).

Definition testeeLog (cache : gmap ModulePtr ObjectFile) (ctx : list IR)
    (test : Test) (Testee : Function) (events : list Event) : Prop :=
  pointsLog test Testee (AllButOne (getParent C Testee) cache)
    (pointsOfTestee ctx Testee) events.

Definition testLog (cache : gmap ModulePtr ObjectFile) (ctx : list IR)
    (test : Test) (events : list Event) : Prop :=
  exists parts : list (list Event),
    Forall2 (testeeLog cache ctx test) (findTestees C ctx test) parts /\
    events = concat parts.

Definition runLog (cache : gmap ModulePtr ObjectFile) (ctx : list IR)
    (events : list Event) : Prop :=
  exists parts : list (list Event),
    Forall2 (testLog cache ctx) (findTests C ctx) parts /\
    events = concat parts.

End Driver.

End Driver.

(** ** A small instance

    The configuration of the unit test of the driver: the bitcode paths
    ["foo"] (the module with the test) and ["bar"] (the module with the
    testee), and a third module ["noop"] whose function only returns.
    Modules are lists of instructions; the mutation operator turns an
    [add] into a [sub]; the object code of a module is the module. *)

Module SimpleTest.
Import Clang.

Inductive Instruction : Type :=
  | add
  | sub
  | call (callee : string)
  | ret.

Record Function : Type := mkFunction {
  functionName : string;
  parent : nat
}.

Inductive MutationOperator : Type :=
  | AddMutationOperator.

(** A mutation point: the instruction it replaces, and what the junk
    detector reads of it. *)
Record MutationPoint : Type := mkPoint {
  inModule : nat;
  instructionIndex : nat;
  junkView : CXXJunkDetector.MutationPoint
}.

(** The modules carry no debug information. *)
Definition noDebugInfo : CXXJunkDetector.MutationPoint :=
  CXXJunkDetector.mkMutationPoint CXXJunkDetector.NullSourceLocation
    CXXJunkDetector.MathAddMutator (CXXJunkDetector.InstructionValue "bar.c").

Definition FakeModuleLoader (path : string) : option (list Instruction) :=
  if bool_decide (path = "foo") then Some [call "sum"; ret]
  else if bool_decide (path = "bar") then Some [add; add; ret]
  else if bool_decide (path = "noop") then Some [ret]
  else None.

Definition scanForAdd (module : nat) (ir : list Instruction) : list MutationPoint :=
  omap (fun entry : nat * Instruction =>
          match entry.2 with
          | add => Some (mkPoint module entry.1 noDebugInfo)
          | _ => None
          end)
       (imap pair ir).

Definition collaborators
    : @Driver.Collaborators (list Instruction) (list Instruction) string
        Function MutationPoint MutationOperator := {|
  Driver.loadModuleAtPath := FakeModuleLoader;
  Driver.CompilerModule ir := ir;
  Driver.findTests ctx :=
    match ctx with
    | [] => []
    | _ :: _ => ["test_main"]
    end;
  Driver.findTestees ctx _ :=
    match ctx with
    | _ :: _ :: _ => [mkFunction "sum" 1]
    | _ => []
    end;
  Driver.findMutationPoints ctx operators Testee :=
    match ctx !! parent Testee with
    | Some ir => flat_map (fun _ => scanForAdd (parent Testee) ir) operators
    | None => []
    end;
  Driver.getParent := parent;
  Driver.applyMutation point := alter (<[instructionIndex point := sub]>) (inModule point);
  Driver.revertMutation point := alter (<[instructionIndex point := add]>) (inModule point);
  Driver.MutOp := AddMutationOperator
|}.

(** The two mutation points of ["bar"]. *)
Definition firstAdd : MutationPoint := mkPoint 1 0 noDebugInfo.
Definition secondAdd : MutationPoint := mkPoint 1 1 noDebugInfo.

(** The modules of ["foo"; "bar"], their baseline objects, and the objects
    compiled while the first and while the second [add] of ["bar"] is
    replaced. *)
Definition fooBar : list (list Instruction) := [[call "sum"; ret]; [add; add; ret]].

Definition fooObject : @Driver.ObjectFile (list Instruction) :=
  Driver.mkObjectFile 0 [call "sum"; ret].
Definition barObject : @Driver.ObjectFile (list Instruction) :=
  Driver.mkObjectFile 1 [add; add; ret].
Definition firstMutant : @Driver.ObjectFile (list Instruction) :=
  Driver.mkObjectFile 2 [sub; add; ret].
Definition secondMutant : @Driver.ObjectFile (list Instruction) :=
  Driver.mkObjectFile 3 [add; sub; ret].

(** The modules of ["foo"; "noop"]. *)
Definition fooNoop : list (list Instruction) := [[call "sum"; ret]; [ret]].

(** A syntax tree for the junk detector: one file, ["sum.c"], in which the
    location of line [l], column [c] has the offset [100 * l + c]; line 9
    is the expansion of a macro.  Three additions enclose offset 112. *)
Definition sumFile : FileEntry := mkFileEntry "sum.c" true.

Definition sumSourceManager : SourceManager := {|
  getFileID _ := 1;
  decomposedOffset l := Z.land (getRawEncoding l) (MacroIDBit - 1);
  fileinfo := [sumFile]
|}.

Definition span (b e : Z) : SourceRange :=
  mkSourceRange (mkSourceLocation b) (mkSourceLocation e).

Definition sumAST : ASTUnit := {|
  getSourceManager := sumSourceManager;
  getLocation _ l c :=
    if l =? 9 then mkSourceLocation (Z.lor MacroIDBit c)
    else mkSourceLocation (100 * l + c);
  translationUnit :=
    [ OtherStmt;
      BinaryOperator BO_Assign (span 101 130);
      BinaryOperator BO_Add (span 105 120);
      BinaryOperator BO_Add (span 110 115);
      UnaryOperator UO_PostInc (span 108 113);
      BinaryOperator BO_LT (span 201 209);
      BinaryOperator BO_Sub (span 301 305) ]
|}.

Definition frontend : CXXJunkDetector.Frontend := {|
  CXXJunkDetector.LoadFromCommandLine _ := Some sumAST;
  CXXJunkDetector.path_filename name := name
|}.

Definition detector : CXXJunkDetector.Detector := {|
  CXXJunkDetector.compdb := None;
  CXXJunkDetector.compilationFlags := ["-I"; "include"];
  CXXJunkDetector.astUnits := ∅
|}.

Definition pointAt (kind : CXXJunkDetector.MutatorKind) (path : string)
    (l c : Z) : CXXJunkDetector.MutationPoint :=
  CXXJunkDetector.mkMutationPoint (CXXJunkDetector.FileLineColumn path l c)
    kind (CXXJunkDetector.InstructionValue "sum.c").

(** Three points of [MathAdd]: in the additions of line 1, in a file the
    tree does not know, and in the macro expansion of line 9. *)
Definition additionPoint : CXXJunkDetector.MutationPoint :=
  pointAt CXXJunkDetector.MathAddMutator "sum.c" 1 12.
Definition strayPoint : CXXJunkDetector.MutationPoint :=
  pointAt CXXJunkDetector.MathAddMutator "other.c" 1 12.
Definition macroPoint : CXXJunkDetector.MutationPoint :=
  pointAt CXXJunkDetector.MathAddMutator "sum.c" 9 12.

(** The detector once it has loaded the tree of ["sum.c"]. *)
Definition detectorWithSum : CXXJunkDetector.Detector :=
  CXXJunkDetector.set_astUnits (insert "sum.c" (Some sumAST)) detector.

End SimpleTest.

(** * Properties *)

(** ** The junk detector *)

Section JunkDetector.
Import Clang CXXJunkDetector.

Variable F : Frontend.

Lemma isFileID_false_isValid (location : Clang.SourceLocation) :
  isFileID location = false -> isValid location = true.
Proof.
  unfold isFileID, isValid. intros Hmacro.
  destruct (getRawEncoding location =? 0) eqn:Hzero; [|reflexivity].
  apply Z.eqb_eq in Hzero. rewrite Hzero in Hmacro. discriminate.
Qed.

Lemma locationInRange_not_file sm range location :
  isFileID location = false -> locationInRange sm range location = Ok false.
Proof. unfold locationInRange. intros ->. reflexivity. Qed.

(** When its two assertions hold, [locationInRange] decides containment. *)
Lemma locationInRange_contains sm range location :
  isValid location = true -> isValid (getBegin range) = true ->
  locationInRange sm range location = Ok (containsLocation sm location range).
Proof.
  intros Hloc Hbegin. unfold locationInRange, containsLocation.
  destruct (isFileID location); [|reflexivity].
  rewrite Hloc, Hbegin. cbn.
  rewrite Z.geb_leb. f_equal.
  destruct (getFileID sm location =? getFileID sm (getBegin range)); cbn;
    [reflexivity|].
  reflexivity.
Qed.

(** Every visitor shows its [SearchInstructionVisitor] the ranges of the
    operators of its kind, in the order of the traversal, and nothing
    else. *)
Lemma visitStmt_searchedRange kind V visitor node :
  visitorFor kind = Some V ->
  visitStmt V visitor node =
    match searchedRange kind node with
    | Some range => visitRangeWithLocation visitor range
    | None => Ok visitor
    end.
Proof.
  intros HV. destruct kind; simplify_eq/=.
  - destruct node as [opc range|opc range|]; cbn; try reflexivity.
    destruct (isRelationalOp opc); reflexivity.
  - destruct node as [opc range|opc range|]; cbn; try reflexivity.
    + destruct opc; cbn; try reflexivity.
      destruct (visitRangeWithLocation visitor range); reflexivity.
    + destruct opc; reflexivity.
  - destruct node as [opc range|opc range|]; cbn; try reflexivity.
    + destruct opc; cbn; try reflexivity.
      destruct (visitRangeWithLocation visitor range); reflexivity.
    + destruct opc; reflexivity.
Qed.

Lemma TraverseDecl_visitRanges kind V nodes : forall visitor,
  visitorFor kind = Some V ->
  TraverseDecl V visitor nodes = visitRanges visitor (operatorRanges kind nodes).
Proof.
  induction nodes as [|node nodes IH]; intros visitor HV; [reflexivity|].
  cbn [TraverseDecl operatorRanges omap list_omap].
  rewrite (visitStmt_searchedRange kind) by assumption.
  destruct (searchedRange kind node) as [range|]; cbn.
  - destruct (visitRangeWithLocation visitor range); cbn; [|reflexivity].
    apply IH; assumption.
  - apply IH; assumption.
Qed.

Lemma visitRanges_not_file ranges : forall visitor,
  isFileID (sourceLocation visitor) = false ->
  visitRanges visitor ranges = Ok visitor.
Proof.
  induction ranges as [|range ranges IH]; intros visitor Hmacro; [reflexivity|].
  cbn. unfold visitRangeWithLocation.
  rewrite locationInRange_not_file by assumption. cbn. apply IH; assumption.
Qed.

(** [isJunk] on a point with a source location runs the visitor of the
    point's kind. *)
Lemma isJunk_isJunkWith kind V point d :
  isNull (getSourceLocation point) = false ->
  mutatorKind point = kind ->
  visitorFor kind = Some V ->
  isJunk F point d = isJunkWith V F point (getSourceLocation point) d.
Proof.
  intros Hnull <- HV. unfold isJunk. rewrite Hnull.
  destruct (mutatorKind point); simplify_eq/=; reflexivity.
Qed.

(** What [isJunkWith] does once the syntax tree and the file are found. *)
Lemma isJunkWith_found V point d ast d' file :
  isNull (getSourceLocation point) = false ->
  findAST F point d = Ok (Some ast, d') ->
  firstFileNamed (filePath (getSourceLocation point))
    (fileinfo (getSourceManager ast)) = Some file ->
  file_isValid file = true ->
  let location := getLocation ast file (line (getSourceLocation point))
                    (column (getSourceLocation point)) in
  isValid location = true ->
  isJunkWith V F point (getSourceLocation point) d =
    visitor ← TraverseDecl V
      (SearchInstructionVisitor_new (getSourceManager ast) location)
      (translationUnit ast);
    Ok (negb (foundMutant visitor), d').
Proof.
  intros Hnull HAST Hfile Hvalid location Hloc.
  unfold isJunkWith. rewrite HAST. cbn.
  unfold findFileEntry. rewrite Hnull. cbn. rewrite Hfile, Hvalid. cbn.
  fold location. rewrite Hloc. reflexivity.
Qed.

End JunkDetector.

(** ** The tightest enclosing range *)

Section TightestRange.
Import Clang CXXJunkDetector.

Variable sm : SourceManager.
Variable location : Clang.SourceLocation.

Lemma getFileOffset_bounds (l : Clang.SourceLocation) :
  0 <= getFileOffset sm l < 2 ^ 32.
Proof. unfold getFileOffset, wrap32. apply Z.mod_pos_bound. lia. Qed.

(** The unsigned subtraction in [smallestSourceRange] does not wrap on a
    range that contains the point. *)
Lemma rangeLength_spanLength range :
  containsLocation sm location range = true ->
  rangeLength sm range = spanLength sm range.
Proof.
  unfold containsLocation, rangeLength, spanLength. intros Hin.
  repeat (apply andb_prop in Hin as [Hin ?]).
  pose proof (getFileOffset_bounds (getBegin range)).
  pose proof (getFileOffset_bounds (getEnd range)).
  unfold wrap32. apply Z.mod_small. lia.
Qed.

Lemma tightestFirst_singleton range :
  tightestFirst sm [range] range.
Proof.
  exists 0%nat. split; [reflexivity|].
  intros [|j] other Hother; [|destruct j; discriminate].
  injection Hother as <-. split; lia.
Qed.

(** The range kept so far stays the answer when a range that is not
    shorter comes next. *)
Lemma tightestFirst_keep current next rest range :
  tightestFirst sm (current :: rest) range ->
  spanLength sm current <= spanLength sm next ->
  tightestFirst sm (current :: next :: rest) range.
Proof.
  intros [i [Hi Hmin]] Hle.
  pose proof (Hmin 0%nat current eq_refl) as [Hcur Hcur'].
  destruct i as [|i].
  - exists 0%nat. split; [assumption|].
    intros [|[|j]] other Hother.
    + apply (Hmin 0%nat); assumption.
    + injection Hother as <-. split; lia.
    + destruct (Hmin (S j) other Hother). split; lia.
  - exists (S (S i)). split; [assumption|].
    intros [|[|j]] other Hother.
    + destruct (Hmin 0%nat other Hother). split; [assumption|]. intros _. lia.
    + injection Hother as <-. split; lia.
    + destruct (Hmin (S j) other Hother). split; [assumption|]. intros; lia.
Qed.

(** A strictly shorter range takes over from the range kept so far. *)
Lemma tightestFirst_replace current next rest range :
  tightestFirst sm (next :: rest) range ->
  spanLength sm next < spanLength sm current ->
  tightestFirst sm (current :: next :: rest) range.
Proof.
  intros [i [Hi Hmin]] Hlt.
  pose proof (Hmin 0%nat next eq_refl) as [Hnext _].
  exists (S i). split; [assumption|].
  intros [|j] other Hother.
  - injection Hother as <-. split; lia.
  - destruct (Hmin j other Hother). split; [assumption|]. intros; lia.
Qed.

(** The invariant of the visitor, for any range [current] it may hold. *)
Lemma visitRanges_tightest (Hlocation : isValid location = true) ranges :
  forall current,
  Forall (fun range => range_isValid range = true) ranges ->
  (range_isValid current = true -> containsLocation sm location current = true) ->
  exists visitor,
    visitRanges (mkSearchInstructionVisitor sm location current) ranges = Ok visitor /\
    if range_isValid current
    then tightestFirst sm (current :: candidates sm location ranges) (sourceRange visitor)
    else (candidates sm location ranges = [] /\ sourceRange visitor = current) \/
         (candidates sm location ranges <> [] /\
          tightestFirst sm (candidates sm location ranges) (sourceRange visitor)).
Proof.
  induction ranges as [|next rest IH]; intros current Hvalid Hcurrent.
  - eexists. split; [reflexivity|]. cbn.
    destruct (range_isValid current).
    + apply tightestFirst_singleton.
    + left. split; reflexivity.
  - inversion Hvalid as [|? ? Hnext Hrest]; subst.
    assert (isValid (getBegin next) = true) as Hbegin.
    { unfold range_isValid in Hnext. apply andb_prop in Hnext as [? _]. assumption. }
    cbn [visitRanges]. unfold visitRangeWithLocation. cbn [sourceManager sourceLocation sourceRange].
    rewrite locationInRange_contains by assumption. cbn [mbind result_bind].
    unfold candidates. cbn [List.filter]. fold (candidates sm location rest).
    destruct (containsLocation sm location next) eqn:Hin.
    + unfold smallestSourceRange, range_isInvalid.
      destruct (range_isValid current) eqn:Hcur; cbn [negb].
      * specialize (Hcurrent eq_refl). rewrite Hnext. cbn [negb].
        rewrite (rangeLength_spanLength current) by assumption.
        rewrite (rangeLength_spanLength next) by assumption.
        destruct (spanLength sm current <? spanLength sm next) eqn:Hlt.
        { apply Z.ltb_lt in Hlt.
          destruct (IH current Hrest (fun _ => Hcurrent)) as [visitor [Hrun Hspec]].
          exists visitor. split; [assumption|]. rewrite Hcur in Hspec.
          apply tightestFirst_keep; [assumption|lia]. }
        apply Z.ltb_ge in Hlt.
        destruct (spanLength sm next <? spanLength sm current) eqn:Hgt.
        { apply Z.ltb_lt in Hgt.
          destruct (IH next Hrest (fun _ => Hin)) as [visitor [Hrun Hspec]].
          exists visitor. split; [assumption|]. rewrite Hnext in Hspec.
          apply tightestFirst_replace; assumption. }
        apply Z.ltb_ge in Hgt.
        destruct (IH current Hrest (fun _ => Hcurrent)) as [visitor [Hrun Hspec]].
        exists visitor. split; [assumption|]. rewrite Hcur in Hspec.
        apply tightestFirst_keep; [assumption|lia].
      * destruct (IH next Hrest (fun _ => Hin)) as [visitor [Hrun Hspec]].
        exists visitor. split; [assumption|]. rewrite Hnext in Hspec.
        right. split; [discriminate|assumption].
    + destruct (IH current Hrest Hcurrent) as [visitor [Hrun Hspec]].
      exists visitor. split; [assumption|]. assumption.
Qed.

Lemma tightestFirst_valid ranges range :
  Forall (fun range => range_isValid range = true) ranges ->
  tightestFirst sm (candidates sm location ranges) range ->
  range_isValid range = true.
Proof.
  intros Hvalid [i [Hi _]].
  apply list_elem_of_lookup_2 in Hi. apply list_elem_of_In in Hi.
  apply filter_In in Hi as [Hi _].
  rewrite Forall_forall in Hvalid. apply Hvalid, Hi.
Qed.

End TightestRange.

(** ** What [isJunk] answers *)

Section IsJunk.
Import Clang CXXJunkDetector.

Lemma searchedKinds_visitorFor kind :
  In kind searchedKinds -> exists V, visitorFor kind = Some V.
Proof.
  intros [<-|[<-|[<-|[]]]]; eexists; reflexivity.
Qed.

(** C5.  A mutation point whose source location is null is junk, whatever
    its mutator kind: [isJunk] returns [true], and it does so without
    loading a syntax tree. *)
Theorem isJunk_null_source_location (F : Frontend) (point : MutationPoint)
    (d : Detector) :
  isNull (getSourceLocation point) = true ->
  isJunk F point d = Ok (true, d).
Proof.
  intros Hnull. unfold isJunk. rewrite Hnull. reflexivity.
Qed.

(** C6, as the detector behaves.  For a point of kind
    [ConditionalsBoundary], [MathAdd] or [MathSub] with a source location,
    when the syntax tree that [findAST] returns has no file entry named
    like the path of the location, [findFileEntry] returns null and
    [isJunk] stops at [assert(file)]: it classifies the point neither as
    junk nor as not junk. *)
Theorem isJunk_without_file_entry (F : Frontend) (point : MutationPoint)
    (d d' : Detector) (ast : ASTUnit) :
  In (mutatorKind point) searchedKinds ->
  isNull (getSourceLocation point) = false ->
  findAST F point d = Ok (Some ast, d') ->
  firstFileNamed (filePath (getSourceLocation point))
    (fileinfo (getSourceManager ast)) = None ->
  findFileEntry (Some ast) point = Ok None /\
  isJunk F point d = Err (AssertionFailed "file").
Proof.
  intros Hkind Hnull HAST Hnone.
  destruct (searchedKinds_visitorFor _ Hkind) as [V HV].
  rewrite (isJunk_isJunkWith F _ V) by auto.
  unfold isJunkWith, findFileEntry. rewrite HAST. cbn.
  rewrite Hnull. cbn. rewrite Hnone. split; reflexivity.
Qed.

(** C10.  For a point of kind [ConditionalsBoundary], [MathAdd] or
    [MathSub] whose location in the syntax tree is not a file location,
    [locationInRange] answers [false] for every range, and [isJunk]
    returns [true]. *)
Theorem isJunk_location_not_in_file (F : Frontend) (point : MutationPoint)
    (d d' : Detector) (ast : ASTUnit) (file : FileEntry) :
  In (mutatorKind point) searchedKinds ->
  isNull (getSourceLocation point) = false ->
  findAST F point d = Ok (Some ast, d') ->
  firstFileNamed (filePath (getSourceLocation point))
    (fileinfo (getSourceManager ast)) = Some file ->
  file_isValid file = true ->
  isFileID (getLocation ast file (line (getSourceLocation point))
              (column (getSourceLocation point))) = false ->
  (forall (sm : SourceManager) (range : SourceRange),
     locationInRange sm range
       (getLocation ast file (line (getSourceLocation point))
          (column (getSourceLocation point))) = Ok false) /\
  isJunk F point d = Ok (true, d').
Proof.
  intros Hkind Hnull HAST Hfile Hvalid Hmacro. split.
  - intros sm range. apply locationInRange_not_file. assumption.
  - destruct (searchedKinds_visitorFor _ Hkind) as [V HV].
    rewrite (isJunk_isJunkWith F _ V) by auto.
    rewrite (isJunkWith_found F V point d ast d' file)
      by auto using isFileID_false_isValid.
    rewrite (TraverseDecl_visitRanges (mutatorKind point)) by assumption.
    rewrite visitRanges_not_file by assumption. reflexivity.
Qed.

(** C7.  Among the ranges of the operators of the point's kind that
    contain the location of the point, the visitor ends with the one of
    smallest length, and with the first of these when several have that
    length; it has found a range exactly when some range of that kind
    contains the location, and [isJunk] returns the negation of that. *)
Theorem isJunk_tightest_range (F : Frontend) (point : MutationPoint)
    (d d' : Detector) (ast : ASTUnit) (file : FileEntry) (V : Visitor) :
  visitorFor (mutatorKind point) = Some V ->
  isNull (getSourceLocation point) = false ->
  findAST F point d = Ok (Some ast, d') ->
  firstFileNamed (filePath (getSourceLocation point))
    (fileinfo (getSourceManager ast)) = Some file ->
  file_isValid file = true ->
  isValid (getLocation ast file (line (getSourceLocation point))
             (column (getSourceLocation point))) = true ->
  Forall (fun range => range_isValid range = true)
    (operatorRanges (mutatorKind point) (translationUnit ast)) ->
  exists (visitor : SearchInstructionVisitor) (matching : list SourceRange),
    matching =
      candidates (getSourceManager ast)
        (getLocation ast file (line (getSourceLocation point))
           (column (getSourceLocation point)))
        (operatorRanges (mutatorKind point) (translationUnit ast)) /\
    TraverseDecl V
      (SearchInstructionVisitor_new (getSourceManager ast)
         (getLocation ast file (line (getSourceLocation point))
            (column (getSourceLocation point))))
      (translationUnit ast) = Ok visitor /\
    (matching <> [] ->
     tightestFirst (getSourceManager ast) matching (sourceRange visitor)) /\
    (foundRange visitor = true <-> matching <> []) /\
    isJunk F point d = Ok (negb (foundRange visitor), d').
Proof.
  intros HV Hnull HAST Hfile Hfvalid Hloc Hranges.
  set (sm := getSourceManager ast) in *.
  set (location := getLocation ast file _ _) in *.
  set (ranges := operatorRanges _ _) in *.
  destruct (visitRanges_tightest sm location Hloc ranges SourceRange_default
              Hranges) as [visitor [Hrun Hspec]]; [discriminate|].
  exists visitor, (candidates sm location ranges).
  rewrite (isJunk_isJunkWith F _ V) by auto.
  rewrite (isJunkWith_found F V point d ast d' file) by auto.
  fold sm location.
  rewrite (TraverseDecl_visitRanges (mutatorKind point)) by assumption.
  fold ranges. unfold SearchInstructionVisitor_new. rewrite Hrun.
  cbn in Hspec. cbn [mbind result_bind]. unfold foundMutant.
  split; [reflexivity|]. split; [reflexivity|].
  repeat apply conj; [| | |reflexivity].
  - destruct Hspec as [[Hnone _]|[_ Htight]]; [congruence|auto].
  - destruct Hspec as [[_ Hkeep]|[Hsome _]]; [|auto].
    unfold foundRange. rewrite Hkeep. discriminate.
  - destruct Hspec as [[Hnone _]|[_ Htight]]; [congruence|].
    intros _. unfold foundRange. eapply tightestFirst_valid; eassumption.
Qed.

End IsJunk.

Section IsJunkInstances.
Import Clang CXXJunkDetector SimpleTest.

(** The claim C6 as the specification words it ("fail junk if none") does
    not hold: [strayPoint] is a [MathAdd] point with a source location
    whose path names no file entry of the loaded tree, and [isJunk] does
    not return [true] on it. *)
Lemma isJunk_without_file_entry_counterexample :
  In (mutatorKind strayPoint) searchedKinds /\
  isNull (getSourceLocation strayPoint) = false /\
  findAST frontend strayPoint detector = Ok (Some sumAST, detectorWithSum) /\
  firstFileNamed (filePath (getSourceLocation strayPoint))
    (fileinfo (getSourceManager sumAST)) = None /\
  ~ (exists d' : Detector, isJunk frontend strayPoint detector = Ok (true, d')).
Proof.
  split; [right; left; reflexivity|].
  split; [reflexivity|]. split; [reflexivity|]. split; [reflexivity|].
  intros [d' Hjunk]. vm_compute in Hjunk. discriminate.
Qed.

Lemma isJunk_null_source_location_witness :
  isJunk frontend noDebugInfo detector = Ok (true, detector).
Proof.
  apply (isJunk_null_source_location frontend noDebugInfo detector).
  reflexivity.
Defined.

(** Null wins over the kind: the same holds for a kind that [isJunk]
    would otherwise call not junk. *)
Example isJunk_null_other_kind :
  isJunk frontend
    (mkMutationPoint NullSourceLocation (OtherMutator "negate") OtherValue)
    detector = Ok (true, detector) /\
  isJunk frontend
    (mkMutationPoint (FileLineColumn "sum.c" 1 12) (OtherMutator "negate") OtherValue)
    detector = Ok (false, detector).
Proof. split; reflexivity. Qed.

(** Of the three ranges that enclose offset 112, the visitor ends with the
    first of the two of length 5. *)
Example tightest_of_sum :
  sourceRange <$>
    TraverseDecl MathAddVisitor
      (SearchInstructionVisitor_new sumSourceManager (mkSourceLocation 112))
      (translationUnit sumAST) = Ok (span 110 115).
Proof. vm_compute. reflexivity. Qed.

Lemma isJunk_without_file_entry_witness :
  findFileEntry (Some sumAST) strayPoint = Ok None /\
  isJunk frontend strayPoint detector = Err (AssertionFailed "file").
Proof.
  apply (isJunk_without_file_entry frontend strayPoint detector
           detectorWithSum sumAST).
  - right; left; reflexivity.
  - reflexivity.
  - reflexivity.
  - reflexivity.
Defined.

Lemma isJunk_location_not_in_file_witness :
  (forall (sm : SourceManager) (range : SourceRange),
     locationInRange sm range (getLocation sumAST sumFile 9 12) = Ok false) /\
  isJunk frontend macroPoint detector = Ok (true, detectorWithSum).
Proof.
  apply (isJunk_location_not_in_file frontend macroPoint detector
           detectorWithSum sumAST sumFile).
  - right; left; reflexivity.
  - reflexivity.
  - reflexivity.
  - reflexivity.
  - reflexivity.
  - reflexivity.
Defined.

Lemma isJunk_tightest_range_witness :
  exists (visitor : SearchInstructionVisitor) (matching : list SourceRange),
    matching = [span 105 120; span 110 115; span 108 113] /\
    TraverseDecl MathAddVisitor
      (SearchInstructionVisitor_new sumSourceManager (mkSourceLocation 112))
      (translationUnit sumAST) = Ok visitor /\
    (matching <> [] -> tightestFirst sumSourceManager matching (sourceRange visitor)) /\
    (foundRange visitor = true <-> matching <> []) /\
    isJunk frontend additionPoint detector =
      Ok (negb (foundRange visitor), detectorWithSum).
Proof.
  apply (isJunk_tightest_range frontend additionPoint detector
           detectorWithSum sumAST sumFile MathAddVisitor).
  - reflexivity.
  - reflexivity.
  - reflexivity.
  - reflexivity.
  - reflexivity.
  - reflexivity.
  - repeat constructor.
Defined.

End IsJunkInstances.

(** ** The driver *)

Section DriverFacts.
Import Driver.

Context {IR Code Test Function MutationPoint MutationOperator : Type}.
Variable C : @Collaborators IR Code Test Function MutationPoint MutationOperator.

Local Abbreviation State := (@State IR Code Test MutationPoint).
Local Abbreviation Event := (@Event Code Test MutationPoint).

(** Unfolding of the monad, one bind at a time. *)
Lemma bind_M_Ok {S A B} (c : M S A) (k : A -> M S B) (s s' : S) (a : A) :
  c s = Ok (a, s') -> (c ≫= k) s = k a s'.
Proof. intros Hc. unfold mbind, M_bind, bind_M. rewrite Hc. reflexivity. Qed.

Ltac step_M :=
  unfold mbind, M_bind, bind_M, setCtx, emit, get_M, lift_M, compile,
    InnerCache_insert, mret, M_ret, ret_M; cbn.

(** X17.  [AllButOne] returns the cached objects of the modules other
    than [One], and only these. *)
Lemma AllButOne_elem_of (One : ModulePtr)
    (cache : gmap ModulePtr (@ObjectFile Code)) (object : @ObjectFile Code) :
  object ∈ AllButOne One cache <->
  exists module : ModulePtr, module <> One /\ cache !! module = Some object.
Proof.
  unfold AllButOne. rewrite list_elem_of_omap. split.
  - intros [[module object'] [Hentry Hkeep]]. cbn in Hkeep.
    destruct (decide (One ≠ module)) as [Hne|]; [|discriminate].
    injection Hkeep as ->. exists module.
    split; [congruence|]. apply elem_of_map_to_list. exact Hentry.
  - intros [module [Hne Hlookup]]. exists (module, object).
    split; [apply elem_of_map_to_list; exact Hlookup|]. cbn.
    destruct (decide (One ≠ module)) as [|Heq]; [reflexivity|].
    exfalso. apply Heq. congruence.
Qed.

(** One iteration of the innermost loop, for a point that behaves. *)
Lemma mutate_behaves (test : Test) (Testee : Function)
    (ObjectFiles : list ObjectFile) (point : MutationPoint) (st : State) :
  pointBehaves C (Ctx st) Testee point ->
  exists Mutant : ObjectFile,
    mutate C test Testee ObjectFiles point st =
      Ok (ObjectFiles ++ [Mutant],
          mkState (InnerCache st) (Ctx st) (S (compiledSoFar st))
            (Log st ++ [Applied point; Compiled (getParent C Testee) Mutant;
                        Reverted point; RanTest test (ObjectFiles ++ [Mutant])])).
Proof.
  intros [Hrevert [ir Hir]].
  exists (mkObjectFile (compiledSoFar st) (CompilerModule C ir)).
  unfold mutate. step_M. rewrite Hir. cbn. rewrite Hrevert.
  rewrite <- !app_assoc. reflexivity.
Qed.

Lemma forMutationPoints_log (test : Test) (Testee : Function)
    (points : list MutationPoint) :
  forall (ObjectFiles : list ObjectFile) (st : State),
  Forall (pointBehaves C (Ctx st) Testee) points ->
  exists (events : list Event) (st' : State),
    forMutationPoints C test Testee ObjectFiles points st = Ok (tt, st') /\
    InnerCache st' = InnerCache st /\
    Ctx st' = Ctx st /\
    Log st' = Log st ++ events /\
    pointsLog C test Testee ObjectFiles points events.
Proof.
  induction points as [|point rest IH]; intros ObjectFiles st Hbehave.
  - exists [], st. rewrite app_nil_r. repeat split. constructor.
  - inversion Hbehave as [|? ? Hpoint Hrest]; subst.
    destruct (mutate_behaves test Testee ObjectFiles point st Hpoint)
      as [Mutant Hmutate].
    cbn [forMutationPoints]. rewrite (bind_M_Ok _ _ _ _ _ Hmutate).
    match type of Hmutate with _ = Ok (_, ?s) => set (st1 := s) in * end.
    destruct (IH (ObjectFiles ++ [Mutant]) st1 Hrest)
      as (events & st' & Hrun & Hcache & Hctx & Hlog & Hshape).
    eexists. exists st'. split; [exact Hrun|].
    split; [exact Hcache|]. split; [exact Hctx|]. split.
    + rewrite Hlog. subst st1. cbn [Log]. rewrite <- app_assoc. reflexivity.
    + constructor. exact Hshape.
Qed.

Lemma forTestees_log (test : Test) (ctx : list IR)
    (cache : gmap ModulePtr ObjectFile) (testees : list Function) :
  forall st : State,
  Ctx st = ctx -> InnerCache st = cache ->
  Forall (fun Testee => Forall (pointBehaves C ctx Testee) (pointsOfTestee C ctx Testee))
    testees ->
  exists (parts : list (list Event)) (st' : State),
    forTestees C [MutOp C] test testees st = Ok (tt, st') /\
    InnerCache st' = cache /\
    Ctx st' = ctx /\
    Log st' = Log st ++ concat parts /\
    Forall2 (testeeLog C cache ctx test) testees parts.
Proof.
  induction testees as [|Testee rest IH]; intros st Hctx Hcache Hbehave.
  - exists [], st. cbn. rewrite app_nil_r. repeat split; auto.
  - inversion Hbehave as [|? ? Hpoints Hrest]; subst.
    destruct (forMutationPoints_log test Testee (pointsOfTestee C (Ctx st) Testee)
                (AllButOne (getParent C Testee) (InnerCache st)) st Hpoints)
      as (events & st1 & Hrun1 & Hcache1 & Hctx1 & Hlog1 & Hshape1).
    destruct (IH st1 Hctx1 Hcache1 Hrest)
      as (parts & st2 & Hrun2 & Hcache2 & Hctx2 & Hlog2 & Hshape2).
    exists (events :: parts), st2.
    split.
    { cbn [forTestees].
      assert (forTestee C [MutOp C] test Testee st = Ok (tt, st1)) as Hbody.
      { unfold forTestee. step_M. exact Hrun1. }
      rewrite (bind_M_Ok _ _ _ _ _ Hbody). exact Hrun2. }
    split; [exact Hcache2|]. split; [exact Hctx2|]. split.
    + rewrite Hlog2, Hlog1. cbn [concat]. rewrite app_assoc. reflexivity.
    + constructor; [exact Hshape1|exact Hshape2].
Qed.

Lemma forTests_log (ctx : list IR) (cache : gmap ModulePtr ObjectFile)
    (tests : list Test) :
  forall st : State,
  Ctx st = ctx -> InnerCache st = cache ->
  Forall (fun test =>
    Forall (fun Testee => Forall (pointBehaves C ctx Testee) (pointsOfTestee C ctx Testee))
      (findTestees C ctx test)) tests ->
  exists (parts : list (list Event)) (st' : State),
    forTests C [MutOp C] tests st = Ok (tt, st') /\
    InnerCache st' = cache /\
    Ctx st' = ctx /\
    Log st' = Log st ++ concat parts /\
    Forall2 (testLog C cache ctx) tests parts.
Proof.
  induction tests as [|test rest IH]; intros st Hctx Hcache Hbehave.
  - exists [], st. cbn. rewrite app_nil_r. repeat split; auto.
  - inversion Hbehave as [|? ? Htestees Hrest]; subst.
    destruct (forTestees_log test (Ctx st) (InnerCache st)
                (findTestees C (Ctx st) test) st eq_refl eq_refl Htestees)
      as (parts1 & st1 & Hrun1 & Hcache1 & Hctx1 & Hlog1 & Hshape1).
    destruct (IH st1 Hctx1 Hcache1 Hrest)
      as (parts & st2 & Hrun2 & Hcache2 & Hctx2 & Hlog2 & Hshape2).
    exists (concat parts1 :: parts), st2.
    split.
    { cbn [forTests].
      assert (forTest C [MutOp C] test st = Ok (tt, st1)) as Hbody.
      { unfold forTest. step_M. exact Hrun1. }
      rewrite (bind_M_Ok _ _ _ _ _ Hbody). exact Hrun2. }
    split; [exact Hcache2|]. split; [exact Hctx2|]. split.
    + rewrite Hlog2, Hlog1. cbn [concat]. rewrite app_assoc. reflexivity.
    + constructor; [|exact Hshape2]. exists parts1. split; [exact Hshape1|reflexivity].
Qed.

Lemma runMutants_log (st : State) :
  pointsBehave C (Ctx st) ->
  exists (events : list Event) (st' : State),
    runMutants C st = Ok (tt, st') /\
    InnerCache st' = InnerCache st /\
    Ctx st' = Ctx st /\
    Log st' = Log st ++ events /\
    runLog C (InnerCache st) (Ctx st) events.
Proof.
  intros Hbehave.
  destruct (forTests_log (Ctx st) (InnerCache st) (findTests C (Ctx st)) st
              eq_refl eq_refl Hbehave)
    as (parts & st' & Hrun & Hcache & Hctx & Hlog & Hshape).
  exists (concat parts), st'.
  split; [unfold runMutants; step_M; exact Hrun|].
  repeat split; auto. exists parts. split; [exact Hshape|reflexivity].
Qed.

End DriverFacts.

(** ** The log of a whole run *)

Section RunFacts.
Import Driver.

Context {IR Code Test Function MutationPoint MutationOperator : Type}.
Variable C : @Collaborators IR Code Test Function MutationPoint MutationOperator.

Local Abbreviation State := (@State IR Code Test MutationPoint).
Local Abbreviation Event := (@Event Code Test MutationPoint).

Ltac step_M :=
  unfold mbind, M_bind, bind_M, setCtx, emit, get_M, lift_M, compile,
    InnerCache_insert, mret, M_ret, ret_M; cbn.

(** Loading edits no module and runs no test; it appends the loaded
    modules to [Ctx]. *)
Lemma loadModules_log (paths : list string) : forall (irs : list IR) (st : State),
  mapM (loadModuleAtPath C) paths = Some irs ->
  exists (events : list Event) (st' : State),
    loadModules C paths st = Ok (tt, st') /\
    Ctx st' = Ctx st ++ irs /\
    Log st' = Log st ++ events /\
    editsOf events = [].
Proof.
  induction paths as [|path rest IH]; intros irs st Hload.
  - injection Hload as <-. exists [], st. rewrite !app_nil_r. auto.
  - cbn in Hload. destruct (loadModuleAtPath C path) as [ir|] eqn:Hpath;
      [|discriminate].
    cbn in Hload. destruct (mapM (loadModuleAtPath C) rest) as [irs'|] eqn:Hrest;
      [|discriminate].
    injection Hload as <-.
    cbn [loadModules]. step_M. rewrite Hpath. cbn.
    match goal with |- exists _ _, loadModules _ _ ?s = _ /\ _ =>
      destruct (IH irs' s eq_refl) as (events & st' & Hrun & Hctx & Hlog & Hedits)
    end.
    exists (Compiled (length (Ctx st)) (mkObjectFile (compiledSoFar st) (CompilerModule C ir))
            :: events), st'.
    split; [exact Hrun|]. split.
    + rewrite Hctx. cbn. rewrite <- app_assoc. reflexivity.
    + split; [|exact Hedits].
      rewrite Hlog. cbn. rewrite <- app_assoc. reflexivity.
Qed.

Lemma editsOf_app (log1 log2 : list Event) :
  editsOf (log1 ++ log2) = editsOf log1 ++ editsOf log2.
Proof. apply List.filter_app. Qed.

Lemma pointsLog_edits test Testee ObjectFiles points (events : list Event) :
  pointsLog C test Testee ObjectFiles points events ->
  editsOf events = flat_map applyThenRevert points.
Proof.
  induction 1 as [|ObjectFiles point rest Mutant events _ IH]; [reflexivity|].
  cbn. f_equal. f_equal. exact IH.
Qed.

Lemma testLog_edits cache ctx test (events : list Event) :
  testLog C cache ctx test events ->
  editsOf events = flat_map applyThenRevert (pointsOfTest C ctx test).
Proof.
  intros (parts & Hparts & ->). unfold pointsOfTest.
  induction Hparts as [|Testee part testees parts Hpart _ IH]; [reflexivity|].
  cbn [concat flat_map]. rewrite editsOf_app, IH, flat_map_app. f_equal.
  eapply pointsLog_edits. exact Hpart.
Qed.

Lemma runLog_edits cache ctx (events : list Event) :
  runLog C cache ctx events ->
  editsOf events =
    flat_map (fun test => flat_map applyThenRevert (pointsOfTest C ctx test))
      (findTests C ctx).
Proof.
  intros (parts & Hparts & ->).
  induction Hparts as [|test part tests parts Hpart _ IH]; [reflexivity|].
  cbn [concat flat_map]. rewrite editsOf_app, IH. f_equal.
  eapply testLog_edits. exact Hpart.
Qed.

(** Every point of the innermost loop is applied, compiled, reverted and
    run. *)
Lemma pointsLog_member test Testee ObjectFiles points (events : list Event) :
  pointsLog C test Testee ObjectFiles points events ->
  forall point, In point points ->
  exists (Mutant : ObjectFile) (before : list ObjectFile),
    In (Applied point) events /\
    In (Compiled (getParent C Testee) Mutant) events /\
    In (Reverted point) events /\
    In (RanTest test (before ++ [Mutant])) events.
Proof.
  induction 1 as [|ObjectFiles point rest Mutant events _ IH];
    intros point' Hin; [destruct Hin|].
  destruct Hin as [<-|Hin].
  - exists Mutant, ObjectFiles. cbn. auto 10.
  - destruct (IH point' Hin) as (Mutant' & before & H1 & H2 & H3 & H4).
    exists Mutant', before. cbn. auto 10.
Qed.

(** With two points or more, the objects of the first run are still in
    the set of the second: the set grows by one mutant per point. *)
Lemma pointsLog_accumulates test Testee ObjectFiles first second rest
    (events : list Event) :
  pointsLog C test Testee ObjectFiles (first :: second :: rest) events ->
  exists (Mutant1 Mutant2 : ObjectFile) (later : list Event),
    events =
      [ Applied first; Compiled (getParent C Testee) Mutant1;
        Reverted first; RanTest test (ObjectFiles ++ [Mutant1]);
        Applied second; Compiled (getParent C Testee) Mutant2;
        Reverted second; RanTest test (ObjectFiles ++ [Mutant1; Mutant2]) ]
      ++ later.
Proof.
  intros Hlog.
  inversion Hlog as [|? ? ? Mutant1 events1 Hlog1]; subst.
  inversion Hlog1 as [|? ? ? Mutant2 events2 Hlog2]; subst.
  exists Mutant1, Mutant2, events2. cbn. rewrite <- app_assoc. reflexivity.
Qed.

(** Every run of a test is on a set of objects that ends with an object
    compiled in the same loop, while a mutation was applied. *)
Lemma pointsLog_runs test Testee ObjectFiles points (events : list Event) :
  pointsLog C test Testee ObjectFiles points events ->
  forall test' objects, In (RanTest test' objects) events ->
  exists (before : list ObjectFile) (Mutant : ObjectFile),
    objects = before ++ [Mutant] /\
    In (Compiled (getParent C Testee) Mutant) events.
Proof.
  induction 1 as [|ObjectFiles point rest Mutant events _ IH];
    intros test' objects Hin; [destruct Hin|].
  cbn in Hin. destruct Hin as [|[|[|[Hrun|Hin]]]]; try discriminate.
  - injection Hrun as <- <-. exists ObjectFiles, Mutant.
    split; [reflexivity|]. cbn. auto.
  - destruct (IH test' objects Hin) as (before & Mutant' & -> & Hcompiled).
    exists before, Mutant'. split; [reflexivity|]. cbn. auto 10.
Qed.

Lemma Forall2_In_l {A B} (R : A -> B -> Prop) (xs : list A) (ys : list B) (x : A) :
  Forall2 R xs ys -> In x xs -> exists y, In y ys /\ R x y.
Proof.
  induction 1 as [|x' y' xs ys Hxy _ IH]; intros Hin; [destruct Hin|].
  destruct Hin as [<-|Hin].
  - exists y'. split; [left; reflexivity|exact Hxy].
  - destruct (IH Hin) as (y & Hy & HR). exists y. split; [right; exact Hy|exact HR].
Qed.

Lemma runLog_member cache ctx (events : list Event) :
  runLog C cache ctx events ->
  forall test Testee point,
  In test (findTests C ctx) ->
  In Testee (findTestees C ctx test) ->
  In point (pointsOfTestee C ctx Testee) ->
  exists (Mutant : ObjectFile) (before : list ObjectFile),
    In (Applied point) events /\
    In (Compiled (getParent C Testee) Mutant) events /\
    In (Reverted point) events /\
    In (RanTest test (before ++ [Mutant])) events.
Proof.
  intros (parts & Hparts & ->) test Testee point Htest Htestee Hpoint.
  destruct (Forall2_In_l _ _ _ _ Hparts Htest) as (part & Hpart & (parts' & Hparts' & ->)).
  destruct (Forall2_In_l _ _ _ _ Hparts' Htestee) as (part' & Hpart' & Hshape).
  destruct (pointsLog_member _ _ _ _ _ Hshape point Hpoint)
    as (Mutant & before & H1 & H2 & H3 & H4).
  assert (forall e : Event, In e part' -> In e (concat parts)) as Hup.
  { intros e He. apply in_concat. eexists. split; [exact Hpart|].
    apply in_concat. eexists. split; [exact Hpart'|exact He]. }
  exists Mutant, before. auto.
Qed.

(** [Run] on a state, in two phases. *)
Lemma Run_phases (paths : list string) (ctx : list IR) (st : State) :
  loadAll C paths = Some ctx ->
  pointsBehave C ctx ->
  exists (loading events : list Event) (loaded final : State),
    (setCtx (fun _ => []) ≫= fun _ => loadModules C paths) st = Ok (tt, loaded) /\
    Run C paths st = Ok (tt, final) /\
    Ctx loaded = ctx /\
    Log loaded = Log st ++ loading /\
    editsOf loading = [] /\
    InnerCache final = InnerCache loaded /\
    Ctx final = ctx /\
    Log final = Log loaded ++ events /\
    runLog C (InnerCache loaded) ctx events.
Proof.
  intros Hload Hbehave.
  destruct (loadModules_log paths ctx
              (mkState (InnerCache st) [] (compiledSoFar st) (Log st)) Hload)
    as (loading & loaded & Hrun1 & Hctx1 & Hlog1 & Hedits).
  cbn in Hctx1, Hlog1.
  rewrite <- Hctx1 in Hbehave.
  destruct (runMutants_log C loaded Hbehave)
    as (events & final & Hrun2 & Hcache2 & Hctx2 & Hlog2 & Hshape).
  rewrite Hctx1 in Hctx2, Hshape.
  exists loading, events, loaded, final.
  assert ((setCtx (fun _ => []) ≫= fun _ => loadModules C paths) st = Ok (tt, loaded))
    as Hphase1 by (step_M; exact Hrun1).
  split; [exact Hphase1|]. split.
  { unfold Run. unfold mbind, M_bind, bind_M in *. cbn in *.
    rewrite Hrun1. exact Hrun2. }
  auto 10.
Qed.

End RunFacts.

(** ** The cache is written by the loading loop only *)

Section RunTheorems.
Import Driver.

Context {IR Code Test Function MutationPoint MutationOperator : Type}.
Variable C : @Collaborators IR Code Test Function MutationPoint MutationOperator.

Local Abbreviation State := (@State IR Code Test MutationPoint).

Lemma bind_M_inv {S A B} (c : M S A) (k : A -> M S B) (s : S) (r : B * S) :
  (c ≫= k) s = Ok r -> exists a s', c s = Ok (a, s') /\ k a s' = Ok r.
Proof.
  unfold mbind, M_bind, bind_M. destruct (c s) as [[a s']|e]; [|discriminate].
  intros Hk. exists a, s'. split; [reflexivity|exact Hk].
Qed.

Lemma mutate_InnerCache test Testee ObjectFiles point (st : State) r :
  mutate C test Testee ObjectFiles point st = Ok r ->
  InnerCache r.2 = InnerCache st.
Proof.
  unfold mutate, mbind, M_bind, bind_M, setCtx, emit, get_M, lift_M, compile,
    mret, M_ret, ret_M. cbn.
  destruct (applyMutation C point (Ctx st) !! getParent C Testee); [|discriminate].
  intros [= <-]. reflexivity.
Qed.

Lemma forMutationPoints_InnerCache test Testee points :
  forall ObjectFiles (st : State) r,
  forMutationPoints C test Testee ObjectFiles points st = Ok r ->
  InnerCache r.2 = InnerCache st.
Proof.
  induction points as [|point rest IH]; intros ObjectFiles st r Hrun.
  - injection Hrun as <-. reflexivity.
  - cbn [forMutationPoints] in Hrun.
    apply bind_M_inv in Hrun as (ObjectFiles' & st' & Hbody & Hrest).
    rewrite (IH _ _ _ Hrest). exact (mutate_InnerCache _ _ _ _ _ _ Hbody).
Qed.

Lemma forTestees_InnerCache operators test testees :
  forall (st : State) r,
  forTestees C operators test testees st = Ok r ->
  InnerCache r.2 = InnerCache st.
Proof.
  induction testees as [|Testee rest IH]; intros st r Hrun.
  - injection Hrun as <-. reflexivity.
  - cbn [forTestees] in Hrun.
    apply bind_M_inv in Hrun as ([] & st' & Hbody & Hrest).
    rewrite (IH _ _ Hrest).
    exact (forMutationPoints_InnerCache _ _ _ _ _ _ Hbody).
Qed.

Lemma forTests_InnerCache operators tests :
  forall (st : State) r,
  forTests C operators tests st = Ok r ->
  InnerCache r.2 = InnerCache st.
Proof.
  induction tests as [|test rest IH]; intros st r Hrun.
  - injection Hrun as <-. reflexivity.
  - cbn [forTests] in Hrun.
    apply bind_M_inv in Hrun as ([] & st' & Hbody & Hrest).
    rewrite (IH _ _ Hrest).
    exact (forTestees_InnerCache _ _ _ _ _ Hbody).
Qed.

(** Whatever the collaborators do, the loops after loading leave the
    cache as they find it. *)
Lemma runMutants_InnerCache (st : State) r :
  runMutants C st = Ok r -> InnerCache r.2 = InnerCache st.
Proof. exact (forTests_InnerCache _ _ st r). Qed.

(** C9.  The baseline object cache is written by the loading loop only:
    [Run] returns, and the cache it leaves is the cache as it was when the
    last module had been loaded and compiled; no object compiled from a
    mutated module is in it that was not there before. *)
Theorem Run_keeps_InnerCache (paths : list string) (ctx : list IR) (st : State) :
  loadAll C paths = Some ctx ->
  pointsBehave C ctx ->
  exists loaded final : State,
    (setCtx (fun _ => []) ≫= fun _ => loadModules C paths) st = Ok (tt, loaded) /\
    Run C paths st = Ok (tt, final) /\
    runMutants C loaded = Ok (tt, final) /\
    InnerCache final = InnerCache loaded.
Proof.
  intros Hload Hbehave.
  destruct (Run_phases C paths ctx st Hload Hbehave)
    as (loading & events & loaded & final & Hphase1 & Hrun & _).
  exists loaded, final. split; [exact Hphase1|]. split; [exact Hrun|].
  assert (runMutants C loaded = Ok (tt, final)) as Hphase2.
  { unfold Run in Hrun.
    apply bind_M_inv in Hrun as ([] & st1 & Hreset & Hrun).
    apply bind_M_inv in Hrun as ([] & st2 & Hloading & Hrun).
    unfold mbind, M_bind, bind_M in Hphase1. rewrite Hreset, Hloading in Hphase1.
    injection Hphase1 as <-. exact Hrun. }
  split; [exact Hphase2|].
  exact (runMutants_InnerCache loaded _ Hphase2).
Qed.

(** C8.  [Run] on a new driver returns with every module as it was
    loaded; the edits it made are, test after test in the order of the
    test finder, "apply the point, revert the point" for the points of
    the test in the order of the test finder, so that each point is
    reverted before the next is applied; and every iteration of the
    innermost loop leaves every module as it found it. *)
Theorem Run_reverts_each_point_in_order (paths : list string) (ctx : list IR) :
  loadAll C paths = Some ctx ->
  pointsBehave C ctx ->
  (exists final : State,
     Run C paths Driver_new = Ok (tt, final) /\
     Ctx final = ctx /\
     editsOf (Log final) =
       flat_map (fun test => flat_map applyThenRevert (pointsOfTest C ctx test))
         (findTests C ctx)) /\
  (forall test Testee point ObjectFiles (st : State),
     In test (findTests C ctx) ->
     In Testee (findTestees C ctx test) ->
     In point (pointsOfTestee C ctx Testee) ->
     Ctx st = ctx ->
     exists ObjectFiles' (st' : State),
       mutate C test Testee ObjectFiles point st = Ok (ObjectFiles', st') /\
       Ctx st' = Ctx st /\
       editsOf (Log st') = editsOf (Log st) ++ applyThenRevert point).
Proof.
  intros Hload Hbehave. split.
  - destruct (Run_phases C paths ctx Driver_new Hload Hbehave)
      as (loading & events & loaded & final & _ & Hrun & _ & Hlog1 & Hedits
          & _ & Hctx & Hlog2 & Hshape).
    exists final. split; [exact Hrun|]. split; [exact Hctx|].
    rewrite Hlog2, Hlog1. cbn [Log Driver_new app].
    rewrite editsOf_app, Hedits. cbn [app].
    exact (runLog_edits C _ _ _ Hshape).
  - intros test Testee point ObjectFiles st Htest Htestee Hpoint Hctx.
    unfold pointsBehave in Hbehave.
    rewrite List.Forall_forall in Hbehave. specialize (Hbehave test Htest).
    rewrite List.Forall_forall in Hbehave. specialize (Hbehave Testee Htestee).
    rewrite List.Forall_forall in Hbehave. specialize (Hbehave point Hpoint).
    rewrite <- Hctx in Hbehave.
    destruct (mutate_behaves C test Testee ObjectFiles point st Hbehave)
      as [Mutant Hmutate].
    eexists. eexists. split; [exact Hmutate|]. split; [reflexivity|].
    cbn [Log]. rewrite editsOf_app. reflexivity.
Qed.

Lemma appliedOf_app (log1 log2 : list (@Event Code Test MutationPoint)) :
  appliedOf (log1 ++ log2) = appliedOf log1 ++ appliedOf log2.
Proof. apply omap_app. Qed.

Lemma appliedOf_no_edits (log : list (@Event Code Test MutationPoint)) :
  editsOf log = [] -> appliedOf log = [].
Proof.
  induction log as [|e log IH]; [reflexivity|].
  destruct e; cbn; try discriminate; exact IH.
Qed.

Lemma processedIn_later ctx test Testee point
    (events more : list (@Event Code Test MutationPoint)) :
  processedIn C ctx test Testee point events ->
  processedIn C ctx test Testee point (events ++ more).
Proof.
  intros (ir & Mutant & before & earlier & later & Hir & Hcode & ->).
  exists ir, Mutant, before, earlier, (later ++ more).
  split; [exact Hir|]. split; [exact Hcode|].
  rewrite <- !app_assoc. reflexivity.
Qed.

Lemma processedIn_earlier ctx test Testee point
    (events more : list (@Event Code Test MutationPoint)) :
  processedIn C ctx test Testee point events ->
  processedIn C ctx test Testee point (more ++ events).
Proof.
  intros (ir & Mutant & before & earlier & later & Hir & Hcode & ->).
  exists ir, Mutant, before, (more ++ earlier), later.
  split; [exact Hir|]. split; [exact Hcode|].
  rewrite <- !app_assoc. reflexivity.
Qed.

(** One iteration of the innermost loop, with the object it compiles. *)
Lemma mutate_compiles test Testee ObjectFiles point (st : State) (ir : IR) :
  revertMutation C point (applyMutation C point (Ctx st)) = Ctx st ->
  applyMutation C point (Ctx st) !! getParent C Testee = Some ir ->
  mutate C test Testee ObjectFiles point st =
    Ok (ObjectFiles ++ [mkObjectFile (compiledSoFar st) (CompilerModule C ir)],
        mkState (InnerCache st) (Ctx st) (S (compiledSoFar st))
          (Log st ++
           [ Applied point;
             Compiled (getParent C Testee)
               (mkObjectFile (compiledSoFar st) (CompilerModule C ir));
             Reverted point;
             RanTest test
               (ObjectFiles ++ [mkObjectFile (compiledSoFar st) (CompilerModule C ir)]) ])).
Proof.
  intros Hrevert Hir.
  unfold mutate, mbind, M_bind, bind_M, setCtx, emit, get_M, lift_M, compile,
    mret, M_ret, ret_M. cbn.
  rewrite Hir. cbn. rewrite Hrevert. rewrite <- !app_assoc. reflexivity.
Qed.

Lemma forMutationPoints_processes test Testee (points : list MutationPoint) :
  forall (ObjectFiles : list ObjectFile) (st : State),
  Forall (pointBehaves C (Ctx st) Testee) points ->
  exists (events : list (@Event Code Test MutationPoint)) (st' : State),
    forMutationPoints C test Testee ObjectFiles points st = Ok (tt, st') /\
    Ctx st' = Ctx st /\
    Log st' = Log st ++ events /\
    appliedOf events = points /\
    forall point, In point points ->
      processedIn C (Ctx st) test Testee point events.
Proof.
  induction points as [|point rest IH]; intros ObjectFiles st Hbehave.
  - exists [], st. rewrite app_nil_r. repeat split. intros point [].
  - inversion Hbehave as [|? ? [Hrevert [ir Hir]] Hrest]; subst.
    pose proof (mutate_compiles test Testee ObjectFiles point st ir Hrevert Hir)
      as Hmutate.
    match type of Hmutate with _ = Ok (?objects, ?s) =>
      destruct (IH objects s Hrest) as (events & st' & Hrun & Hctx & Hlog & Happlied & Hall)
    end.
    cbn [Ctx Log] in Hctx, Hlog, Hall.
    eexists. exists st'. split.
    { cbn [forMutationPoints]. unfold mbind, M_bind, bind_M.
      rewrite Hmutate. exact Hrun. }
    split; [exact Hctx|]. split.
    { rewrite Hlog, <- app_assoc. reflexivity. }
    split.
    { rewrite appliedOf_app, Happlied. reflexivity. }
    intros point' [<-|Hin].
    + exists ir, (mkObjectFile (compiledSoFar st) (CompilerModule C ir)),
        ObjectFiles, [], events.
      split; [exact Hir|]. split; reflexivity.
    + apply processedIn_earlier. apply Hall. exact Hin.
Qed.

Lemma forTestees_processes test (ctx : list IR) (testees : list Function) :
  forall st : State,
  Ctx st = ctx ->
  Forall (fun Testee => Forall (pointBehaves C ctx Testee) (pointsOfTestee C ctx Testee))
    testees ->
  exists (events : list (@Event Code Test MutationPoint)) (st' : State),
    forTestees C [MutOp C] test testees st = Ok (tt, st') /\
    Ctx st' = ctx /\
    Log st' = Log st ++ events /\
    appliedOf events = flat_map (pointsOfTestee C ctx) testees /\
    forall Testee point,
      In Testee testees -> In point (pointsOfTestee C ctx Testee) ->
      processedIn C ctx test Testee point events.
Proof.
  induction testees as [|Testee rest IH]; intros st Hctx Hbehave.
  - exists [], st. rewrite app_nil_r. repeat split; auto. intros ? ? [].
  - inversion Hbehave as [|? ? Hpoints Hrest]; subst.
    destruct (forMutationPoints_processes test Testee (pointsOfTestee C (Ctx st) Testee)
                (AllButOne (getParent C Testee) (InnerCache st)) st Hpoints)
      as (events1 & st1 & Hrun1 & Hctx1 & Hlog1 & Happlied1 & Hall1).
    destruct (IH st1 Hctx1 Hrest)
      as (events2 & st2 & Hrun2 & Hctx2 & Hlog2 & Happlied2 & Hall2).
    exists (events1 ++ events2), st2. split.
    { cbn [forTestees]. unfold mbind, M_bind, bind_M.
      assert (forTestee C [MutOp C] test Testee st = Ok (tt, st1)) as ->; [|exact Hrun2].
      unfold forTestee, mbind, M_bind, bind_M, get_M. cbn. exact Hrun1. }
    split; [exact Hctx2|]. split.
    { rewrite Hlog2, Hlog1, app_assoc. reflexivity. }
    split.
    { rewrite appliedOf_app, Happlied1, Happlied2. reflexivity. }
    intros Testee' point [<-|Hin] Hpoint.
    + apply processedIn_later. apply Hall1. exact Hpoint.
    + apply processedIn_earlier. apply Hall2; assumption.
Qed.

Lemma forTests_processes (ctx : list IR) (tests : list Test) :
  forall st : State,
  Ctx st = ctx ->
  Forall (fun test =>
    Forall (fun Testee => Forall (pointBehaves C ctx Testee) (pointsOfTestee C ctx Testee))
      (findTestees C ctx test)) tests ->
  exists (events : list (@Event Code Test MutationPoint)) (st' : State),
    forTests C [MutOp C] tests st = Ok (tt, st') /\
    Ctx st' = ctx /\
    Log st' = Log st ++ events /\
    appliedOf events = flat_map (pointsOfTest C ctx) tests /\
    forall test Testee point,
      In test tests -> In Testee (findTestees C ctx test) ->
      In point (pointsOfTestee C ctx Testee) ->
      processedIn C ctx test Testee point events.
Proof.
  induction tests as [|test rest IH]; intros st Hctx Hbehave.
  - exists [], st. rewrite app_nil_r. repeat split; auto. intros ? ? ? [].
  - inversion Hbehave as [|? ? Htestees Hrest]; subst.
    destruct (forTestees_processes test (Ctx st) (findTestees C (Ctx st) test) st
                eq_refl Htestees)
      as (events1 & st1 & Hrun1 & Hctx1 & Hlog1 & Happlied1 & Hall1).
    destruct (IH st1 Hctx1 Hrest)
      as (events2 & st2 & Hrun2 & Hctx2 & Hlog2 & Happlied2 & Hall2).
    exists (events1 ++ events2), st2. split.
    { cbn [forTests]. unfold mbind, M_bind, bind_M.
      assert (forTest C [MutOp C] test st = Ok (tt, st1)) as ->; [|exact Hrun2].
      unfold forTest, mbind, M_bind, bind_M, get_M. cbn. exact Hrun1. }
    split; [exact Hctx2|]. split.
    { rewrite Hlog2, Hlog1, app_assoc. reflexivity. }
    split.
    { cbn [flat_map]. rewrite appliedOf_app, Happlied1, Happlied2. reflexivity. }
    intros test' Testee point [<-|Hin] Htestee Hpoint.
    + apply processedIn_later. apply Hall1; assumption.
    + apply processedIn_earlier. apply Hall2; assumption.
Qed.

(** C4, as the driver behaves.  [Run] asks no junk detector.  The points
    it applies are, in this order, the points that [findMutationPoints]
    returns for the testees of the tests, all of them; and for every such
    point the log has, one after the other with nothing between them: the
    point is applied, the parent of the testee is compiled, to the object
    that the compiler makes of the parent with the point applied, the
    point is reverted, and the test is run on a list of objects that ends
    with that object. *)
Theorem Run_mutates_every_point (paths : list string) (ctx : list IR) :
  loadAll C paths = Some ctx ->
  pointsBehave C ctx ->
  exists final : State,
    Run C paths Driver_new = Ok (tt, final) /\
    appliedOf (Log final) = flat_map (pointsOfTest C ctx) (findTests C ctx) /\
    forall test Testee point,
      In test (findTests C ctx) ->
      In Testee (findTestees C ctx test) ->
      In point (findMutationPoints C ctx [MutOp C] Testee) ->
      processedIn C ctx test Testee point (Log final).
Proof.
  intros Hload Hbehave.
  destruct (loadModules_log C paths ctx (mkState ∅ [] 0 []) Hload)
    as (loading & loaded & Hloading & Hctx & Hlog & Hedits).
  cbn [Ctx Log app] in Hctx, Hlog.
  destruct (forTests_processes ctx (findTests C ctx) loaded Hctx Hbehave)
    as (events & final & Hrun & _ & Hlog' & Happlied & Hall).
  exists final. split.
  { unfold Run, runMutants, mbind, M_bind, bind_M, setCtx, get_M. cbn.
    rewrite Hloading, Hctx. exact Hrun. }
  rewrite Hlog', Hlog. split.
  - rewrite appliedOf_app, (appliedOf_no_edits loading Hedits), Happlied.
    reflexivity.
  - intros test Testee point Htest Htestee Hpoint.
    apply processedIn_earlier. apply Hall; assumption.
Qed.

End RunTheorems.

(** ** The driver on the configuration of its unit test *)

Section SimpleTestFacts.
Import Driver SimpleTest.

Lemma Run_keeps_InnerCache_witness :
  exists loaded final : @State (list Instruction) (list Instruction) string MutationPoint,
    (setCtx (fun _ => []) ≫= fun _ => loadModules collaborators ["foo"; "bar"])
      Driver_new = Ok (tt, loaded) /\
    Run collaborators ["foo"; "bar"] Driver_new = Ok (tt, final) /\
    runMutants collaborators loaded = Ok (tt, final) /\
    InnerCache final = InnerCache loaded.
Proof.
  apply (Run_keeps_InnerCache collaborators ["foo"; "bar"] fooBar Driver_new).
  - vm_compute; reflexivity.
  - repeat constructor; eexists; vm_compute; reflexivity.
Defined.

Lemma Run_reverts_each_point_in_order_witness :
  (exists final : @State (list Instruction) (list Instruction) string MutationPoint,
     Run collaborators ["foo"; "bar"] Driver_new = Ok (tt, final) /\
     Ctx final = fooBar /\
     editsOf (Log final) =
       flat_map (fun test => flat_map applyThenRevert
                               (pointsOfTest collaborators fooBar test))
         (findTests collaborators fooBar)) /\
  (forall test Testee point ObjectFiles
          (st : @State (list Instruction) (list Instruction) string MutationPoint),
     In test (findTests collaborators fooBar) ->
     In Testee (findTestees collaborators fooBar test) ->
     In point (pointsOfTestee collaborators fooBar Testee) ->
     Ctx st = fooBar ->
     exists ObjectFiles' st',
       mutate collaborators test Testee ObjectFiles point st = Ok (ObjectFiles', st') /\
       Ctx st' = Ctx st /\
       editsOf (Log st') = editsOf (Log st) ++ applyThenRevert point).
Proof.
  apply (Run_reverts_each_point_in_order collaborators ["foo"; "bar"] fooBar).
  - vm_compute; reflexivity.
  - repeat constructor; eexists; vm_compute; reflexivity.
Defined.

Lemma Run_mutates_every_point_witness :
  exists final : @State (list Instruction) (list Instruction) string MutationPoint,
    Run collaborators ["foo"; "bar"] Driver_new = Ok (tt, final) /\
    appliedOf (Log final) =
      flat_map (pointsOfTest collaborators fooBar) (findTests collaborators fooBar) /\
    forall test Testee point,
      In test (findTests collaborators fooBar) ->
      In Testee (findTestees collaborators fooBar test) ->
      In point (findMutationPoints collaborators fooBar [MutOp collaborators] Testee) ->
      processedIn collaborators fooBar test Testee point (Log final).
Proof.
  apply (Run_mutates_every_point collaborators ["foo"; "bar"] fooBar).
  - vm_compute; reflexivity.
  - repeat constructor; eexists; vm_compute; reflexivity.
Defined.

(** The claim C4 as the specification words it does not hold: the first
    [add] of ["bar"] is a mutation point of the testee that the junk
    detector classifies as junk, and [Run] applies it, compiles the
    mutated module and runs the test on the result. *)
Lemma Run_skips_junk_counterexample :
  In firstAdd
    (findMutationPoints collaborators fooBar [MutOp collaborators] (mkFunction "sum" 1)) /\
  CXXJunkDetector.isJunk frontend (junkView firstAdd) detector = Ok (true, detector) /\
  exists final : @State (list Instruction) (list Instruction) string MutationPoint,
    Run collaborators ["foo"; "bar"] Driver_new = Ok (tt, final) /\
    In (Applied firstAdd) (Log final) /\
    In (Compiled 1%nat firstMutant) (Log final) /\
    In (RanTest "test_main" [fooObject; firstMutant]) (Log final).
Proof.
  split; [left; reflexivity|]. split; [reflexivity|].
  eexists. split; [vm_compute; reflexivity|].
  repeat split; vm_compute; auto 12.
Qed.

(** C1, at two mutation points of one testee.  The test is run for the
    second [add] of ["bar"] on three objects: the baseline object of
    ["foo"], the object compiled while the first [add] was replaced, and
    the object compiled while the second is. *)
Theorem Run_keeps_the_previous_mutant :
  (fun r : unit * State => Log r.2)
    <$> Run collaborators ["foo"; "bar"] Driver_new =
  Ok [ Compiled 0%nat fooObject;
       Compiled 1%nat barObject;
       Applied firstAdd;
       Compiled 1%nat firstMutant;
       Reverted firstAdd;
       RanTest "test_main" [fooObject; firstMutant];
       Applied secondAdd;
       Compiled 1%nat secondMutant;
       Reverted secondAdd;
       RanTest "test_main" [fooObject; firstMutant; secondMutant] ].
Proof. vm_compute. reflexivity. Qed.

(** C2, on the same configuration.  The baseline object set is the
    objects of ["foo"] and ["bar"]; the test is run twice, each time on a
    set with a mutant in it, and never on the baseline set; the first
    thing that happens after loading is that a mutation is applied. *)
Theorem Run_runs_no_baseline :
  (fun r : unit * State =>
     (baselineObjects (InnerCache r.2), runsOf (Log r.2), Log r.2 !! 2%nat))
    <$> Run collaborators ["foo"; "bar"] Driver_new =
  Ok ([barObject; fooObject],
      [("test_main", [fooObject; firstMutant]);
       ("test_main", [fooObject; firstMutant; secondMutant])],
      Some (Applied firstAdd)).
Proof. vm_compute. reflexivity. Qed.

(** C3, on a test whose testee has nothing to mutate.  The test finder
    returns one test; [Run] loads and compiles the two modules, never runs
    the test, and returns nothing. *)
Theorem Run_returns_no_results :
  findTests collaborators fooNoop = ["test_main"] /\
  (fun r : unit * State => (r.1, Ctx r.2, Log r.2))
    <$> Run collaborators ["foo"; "noop"] Driver_new =
  Ok (tt, fooNoop,
      [ Compiled 0%nat fooObject;
        Compiled 1%nat (mkObjectFile 1 [ret]) ]).
Proof. split; vm_compute; reflexivity. Qed.

End SimpleTestFacts.

(** * Further properties *)

(** ** The compilation flags and the arguments of the frontend *)

Section CompilationFlags.
Import CXXJunkDetector.

Lemma append_String (c : Ascii.ascii) (s t : string) :
  String.append (String c s) t = String c (String.append s t).
Proof. reflexivity. Qed.

Lemma append_empty_l (s : string) : String.append "" s = s.
Proof. reflexivity. Qed.

Lemma append_empty_r (s : string) : String.append s "" = s.
Proof.
  induction s as [|c s IH]; [reflexivity|].
  rewrite append_String, IH. reflexivity.
Qed.

Lemma append_append (s t u : string) :
  String.append (String.append s t) u = String.append s (String.append t u).
Proof.
  induction s as [|c s IH]; [reflexivity|].
  rewrite !append_String, IH. reflexivity.
Qed.

Lemma hasNoSpace_append (s t : string) :
  hasNoSpace (String.append s t) = hasNoSpace s && hasNoSpace t.
Proof.
  induction s as [|c s IH]; [reflexivity|].
  rewrite append_String. cbn [hasNoSpace]. rewrite IH.
  destruct (Ascii.is_space c); reflexivity.
Qed.

Lemma append_not_empty (s : string) (c : Ascii.ascii) :
  String.append s (String c "") <> "".
Proof. destruct s; discriminate. Qed.

Lemma extractTokens_words (input : string) : forall token : string,
  hasNoSpace token = true -> Forall isWord (extractTokens token input).
Proof.
  induction input as [|c rest IH]; intros token Htoken; cbn.
  - case_bool_decide; constructor; [split; assumption|constructor].
  - destruct (Ascii.is_space c) eqn:Hc.
    + apply Forall_app. split; [|apply IH; reflexivity].
      case_bool_decide; constructor; [split; assumption|constructor].
    + apply IH. rewrite hasNoSpace_append, Htoken. cbn [hasNoSpace andb].
      rewrite Hc. reflexivity.
Qed.

Lemma joinAll_app (words1 words2 : list string) :
  joinAll (words1 ++ words2) = String.append (joinAll words1) (joinAll words2).
Proof.
  induction words1 as [|word rest IH]; [reflexivity|].
  cbn [app joinAll]. rewrite IH, append_append. reflexivity.
Qed.

Lemma joinAll_token (token : string) :
  joinAll (if bool_decide (token = "") then [] else [token]) = token.
Proof.
  case_bool_decide as Hempty; [rewrite Hempty; reflexivity|].
  cbn [joinAll]. apply append_empty_r.
Qed.

Lemma extractTokens_joinAll (input : string) : forall token : string,
  joinAll (extractTokens token input) = String.append token (removeSpaces input).
Proof.
  induction input as [|c rest IH]; intros token; cbn [extractTokens removeSpaces].
  - rewrite joinAll_token, append_empty_r. reflexivity.
  - destruct (Ascii.is_space c).
    + rewrite joinAll_app, joinAll_token, IH, append_empty_l. reflexivity.
    + rewrite IH, append_append, append_String, append_empty_l. reflexivity.
Qed.

Lemma extractTokens_word (word : string) : forall token rest : string,
  hasNoSpace word = true ->
  extractTokens token (String.append word rest) =
  extractTokens (String.append token word) rest.
Proof.
  induction word as [|c word IH]; intros token rest Hword.
  - rewrite append_empty_l, append_empty_r. reflexivity.
  - cbn [hasNoSpace] in Hword. apply andb_prop in Hword as [Hc Hword].
    apply negb_true_iff in Hc.
    rewrite append_String. cbn [extractTokens]. rewrite Hc.
    rewrite IH by assumption. rewrite append_append, append_String, append_empty_l.
    reflexivity.
Qed.

Lemma extractTokens_joinWithBlanks (words : list string) :
  Forall isWord words ->
  extractTokens "" (joinWithBlanks words) = words.
Proof.
  induction words as [|word rest IH]; intros Hwords; [reflexivity|].
  inversion Hwords as [|? ? [Hne Hword] Hrest]; subst.
  destruct rest as [|next rest].
  - cbn [joinWithBlanks].
    rewrite <- (append_empty_r word) at 1.
    rewrite extractTokens_word by assumption. rewrite append_empty_l.
    cbn [extractTokens]. case_bool_decide; [contradiction|reflexivity].
  - change (joinWithBlanks (word :: next :: rest))
      with (String.append word (String blank (joinWithBlanks (next :: rest)))).
    rewrite extractTokens_word by assumption. rewrite append_empty_l.
    cbn [extractTokens]. change (Ascii.is_space blank) with true.
    cbn iota. case_bool_decide; [contradiction|].
    rewrite IH by assumption. reflexivity.
Qed.

Lemma getCompilationFlags_extractTokens (flags : string) :
  getCompilationFlags flags = extractTokens "" flags.
Proof.
  unfold getCompilationFlags. case_bool_decide as Hempty; [|reflexivity].
  rewrite Hempty. reflexivity.
Qed.

Lemma extractTokens_spaces (space : string) : forall rest : string,
  isSpaces space = true ->
  extractTokens "" (String.append space rest) = extractTokens "" rest.
Proof.
  induction space as [|c space IH]; intros rest Hspace; [reflexivity|].
  cbn [isSpaces] in Hspace. apply andb_prop in Hspace as [Hc Hspace].
  rewrite append_String. cbn [extractTokens]. rewrite Hc.
  rewrite bool_decide_eq_true_2 by reflexivity. cbn [app].
  apply IH. assumption.
Qed.

(** X1.  [getCompilationFlags] cuts the flags at every run of white space
    and nowhere else, and drops nothing but white space.  Every flag it
    returns is a word (not empty, no white space in it), and the flags
    put one after the other are the string of the configuration with its
    white space taken out, so that a string that is empty or all white
    space gives no flags.  White space in front is skipped; a word
    followed by white space is the first flag, and the other flags are
    those of what follows; a word alone is the one flag.  There is no
    quoting. *)
Theorem getCompilationFlags_words (flags : string) :
  Forall isWord (getCompilationFlags flags) /\
  joinAll (getCompilationFlags flags) = removeSpaces flags /\
  (getCompilationFlags flags = [] <-> removeSpaces flags = "") /\
  (forall space : string, isSpaces space = true ->
     getCompilationFlags (String.append space flags) = getCompilationFlags flags) /\
  (forall word space : string, isWord word -> isSpaces space = true -> space <> "" ->
     getCompilationFlags (String.append word (String.append space flags)) =
     word :: getCompilationFlags flags) /\
  (isWord flags -> getCompilationFlags flags = [flags]).
Proof.
  assert (Forall isWord (getCompilationFlags flags)) as Hwords.
  { unfold getCompilationFlags. case_bool_decide; [constructor|].
    apply extractTokens_words. reflexivity. }
  assert (joinAll (getCompilationFlags flags) = removeSpaces flags) as Hjoin.
  { rewrite getCompilationFlags_extractTokens, extractTokens_joinAll.
    apply append_empty_l. }
  split; [exact Hwords|]. split; [exact Hjoin|]. split; [|split; [|split]].
  - split.
    + intros Hnone. rewrite <- Hjoin, Hnone. reflexivity.
    + intros Hnone. rewrite <- Hjoin in Hnone.
      destruct (getCompilationFlags flags) as [|word rest]; [reflexivity|].
      inversion Hwords as [|? ? [Hne _] _]; subst.
      cbn [joinAll] in Hnone. destruct word; [contradiction|discriminate].
  - intros space Hspace. rewrite !getCompilationFlags_extractTokens.
    apply extractTokens_spaces. assumption.
  - intros word space [Hne Hword] Hspace Hsome.
    rewrite !getCompilationFlags_extractTokens.
    rewrite extractTokens_word by assumption. rewrite append_empty_l.
    destruct space as [|c space]; [contradiction|].
    cbn [isSpaces] in Hspace. apply andb_prop in Hspace as [Hc Hspace].
    rewrite append_String. cbn [extractTokens]. rewrite Hc.
    rewrite bool_decide_eq_false_2 by assumption. cbn [app].
    f_equal. apply extractTokens_spaces. assumption.
  - intros [Hne Hword]. rewrite getCompilationFlags_extractTokens.
    rewrite <- (append_empty_r flags) at 1.
    rewrite extractTokens_word by assumption. rewrite append_empty_l.
    cbn [extractTokens]. rewrite bool_decide_eq_false_2 by assumption.
    reflexivity.
Qed.

(** X2.  Splitting undoes joining: the flags read from words written one
    after the other with a blank between them are these words. *)
Theorem getCompilationFlags_joinWithBlanks (words : list string) :
  Forall isWord words ->
  getCompilationFlags (joinWithBlanks words) = words.
Proof.
  intros Hwords. unfold getCompilationFlags.
  case_bool_decide as Hempty; [|apply extractTokens_joinWithBlanks; assumption].
  rewrite <- (extractTokens_joinWithBlanks words Hwords), Hempty. reflexivity.
Qed.

Lemma cutCompileOnly_bounded (n : nat) : forall args out : list string,
  (length args <= n)%nat ->
  cutCompileOnly args = Ok out ->
  ("-c" ∉ out) /\ sublist out args.
Proof.
  induction n as [|n IH]; intros args out Hlen Hcut.
  - destruct args; [|cbn in Hlen; lia]. injection Hcut as <-.
    split; [apply not_elem_of_nil|constructor].
  - destruct args as [|arg rest].
    { injection Hcut as <-. split; [apply not_elem_of_nil|constructor]. }
    cbn in Hlen. cbn [cutCompileOnly] in Hcut. case_bool_decide as Harg.
    + destruct rest as [|a [|b rest']]; try discriminate.
      cbn in Hlen. destruct (IH rest' out) as [Hno Hsub]; [lia|assumption|].
      split; [assumption|]. do 3 apply sublist_cons. assumption.
    + destruct (cutCompileOnly rest) as [args'|] eqn:Hrest; [|discriminate].
      cbn in Hcut. injection Hcut as <-.
      destruct (IH rest args') as [Hno Hsub]; [lia|assumption|].
      split; [|apply sublist_skip; assumption].
      rewrite not_elem_of_cons. split; [congruence|assumption].
Qed.

(** X3.  The arguments that the loop of [findAST] keeps are arguments of
    the file, in their order, and ["-c"] is never among them. *)
Theorem cutCompileOnly_sublist (args out : list string) :
  cutCompileOnly args = Ok out ->
  ("-c" ∉ out) /\ sublist out args.
Proof. apply (cutCompileOnly_bounded (length args)). lia. Qed.

(** X4.  The loop keeps all arguments exactly when ["-c"] is none of
    them. *)
Theorem cutCompileOnly_unchanged (args : list string) :
  cutCompileOnly args = Ok args <-> "-c" ∉ args.
Proof.
  split.
  - intros Hcut. apply (cutCompileOnly_bounded (length args) args args);
      [lia|assumption].
  - induction args as [|arg rest IH]; intros Hno; [reflexivity|].
    apply not_elem_of_cons in Hno as [Hne Hno].
    cbn [cutCompileOnly]. case_bool_decide; [congruence|].
    rewrite IH by assumption. reflexivity.
Qed.

(** X5.  At ["-c"] the loop leaves out three arguments, not the two of
    "-c foo.cpp": the argument after the source file goes as well. *)
Theorem cutCompileOnly_leaves_out_three (before after : list string)
    (source next : string) :
  "-c" ∉ before ->
  cutCompileOnly (before ++ "-c" :: source :: next :: after) =
  (fun kept => before ++ kept) <$> cutCompileOnly after.
Proof.
  induction before as [|arg rest IH]; intros Hno.
  - cbn. destruct (cutCompileOnly after); reflexivity.
  - apply not_elem_of_cons in Hno as [Hne Hno].
    cbn [app cutCompileOnly]. case_bool_decide; [congruence|].
    rewrite IH by assumption.
    destruct (cutCompileOnly after); reflexivity.
Qed.

(** X6.  When the first ["-c"] of the arguments is the last argument or
    the last but one, as in a command without an earlier ["-c"] that ends
    in "-c foo.cpp", the iterator of the loop is incremented past the end
    of the arguments. *)
Theorem cutCompileOnly_past_the_end (before : list string) (source : string) :
  "-c" ∉ before ->
  cutCompileOnly (before ++ ["-c"]) =
    Err (UndefinedBehaviour "iterator incremented past end()") /\
  cutCompileOnly (before ++ ["-c"; source]) =
    Err (UndefinedBehaviour "iterator incremented past end()").
Proof.
  induction before as [|arg rest IH]; intros Hno.
  - split; reflexivity.
  - apply not_elem_of_cons in Hno as [Hne Hno].
    destruct (IH Hno) as [IH1 IH2].
    cbn [app cutCompileOnly]. case_bool_decide; [congruence|].
    rewrite IH1, IH2. split; reflexivity.
Qed.

End CompilationFlags.

(** ** The cache of syntax trees *)

Section SyntaxTreeCache.
Import Clang CXXJunkDetector.

(** A tree that [findAST] returned is in the cache, and is returned from
    there. *)
Lemma findAST_hit (F F' : Frontend) (point point' : MutationPoint)
    (d d' : Detector) (ast : option ASTUnit) (sourceFile : string) :
  findAST F point d = Ok (ast, d') ->
  getOriginalValue point = InstructionValue sourceFile ->
  getOriginalValue point' = InstructionValue sourceFile ->
  isNull (getSourceLocation point') = false ->
  astUnits d' !! sourceFile = Some ast /\
  findAST F' point' d' = Ok (ast, d').
Proof.
  intros Hfind Hvalue Hvalue' Hnull'.
  assert (astUnits d' !! sourceFile = Some ast) as Hcached.
  { unfold findAST in Hfind. rewrite Hvalue in Hfind.
    destruct (assert _ _); [|discriminate]. cbn in Hfind.
    destruct (astUnits d !! sourceFile) as [cached|] eqn:Hlookup.
    - injection Hfind as <- <-. assumption.
    - destruct (commandLineArguments F d sourceFile); [|discriminate].
      cbn in Hfind. destruct (cutCompileOnly _); [|discriminate].
      cbn in Hfind. injection Hfind as <- <-. cbn. apply lookup_insert_eq. }
  split; [assumption|].
  unfold findAST. rewrite Hnull', Hvalue'. cbn. rewrite Hcached. reflexivity.
Qed.

(** X7.  [findAST] reads the syntax tree of a source file once.  What it
    returned for a point, it returns for every later point of the same
    source file, from the cache: no frontend is called and the detector
    stays as it is.  This includes a tree that failed to load (null). *)
Theorem findAST_cached (F F' : Frontend) (point point' : MutationPoint)
    (d d' : Detector) (ast : option ASTUnit) (sourceFile : string) :
  findAST F point d = Ok (ast, d') ->
  getOriginalValue point = InstructionValue sourceFile ->
  getOriginalValue point' = InstructionValue sourceFile ->
  isNull (getSourceLocation point') = false ->
  astUnits d' !! sourceFile = Some ast /\
  findAST F' point' d' = Ok (ast, d').
Proof.
  intros Hfind Hvalue Hvalue' Hnull'.
  assert (astUnits d' !! sourceFile = Some ast) as Hcached.
  { unfold findAST in Hfind. rewrite Hvalue in Hfind.
    destruct (assert _ _); [|discriminate]. cbn in Hfind.
    destruct (astUnits d !! sourceFile) as [cached|] eqn:Hlookup.
    - injection Hfind as <- <-. assumption.
    - destruct (commandLineArguments F d sourceFile); [|discriminate].
      cbn in Hfind. destruct (cutCompileOnly _); [|discriminate].
      cbn in Hfind. injection Hfind as <- <-. cbn. apply lookup_insert_eq. }
  split; [assumption|].
  unfold findAST. rewrite Hnull', Hvalue'. cbn. rewrite Hcached. reflexivity.
Qed.

(** X8.  [findAST] changes nothing of the detector but the entry of the
    source file it was asked for: the compilation database, the flags and
    the trees of all other files stay. *)
Theorem findAST_frame (F : Frontend) (point : MutationPoint)
    (d d' : Detector) (ast : option ASTUnit) :
  findAST F point d = Ok (ast, d') ->
  compdb d' = compdb d /\
  compilationFlags d' = compilationFlags d /\
  forall other : string,
    getOriginalValue point <> InstructionValue other ->
    astUnits d' !! other = astUnits d !! other.
Proof.
  unfold findAST. intros Hfind.
  destruct (assert _ _); [|discriminate]. cbn in Hfind.
  destruct (getOriginalValue point) as [sourceFile|].
  - destruct (astUnits d !! sourceFile) as [cached|].
    + injection Hfind as <- <-. auto.
    + destruct (commandLineArguments F d sourceFile); [|discriminate].
      cbn in Hfind. destruct (cutCompileOnly _); [|discriminate].
      cbn in Hfind. injection Hfind as <- <-. cbn.
      split; [reflexivity|]. split; [reflexivity|].
      intros other Hother. apply lookup_insert_ne. congruence.
  - injection Hfind as <- <-. auto.
Qed.

(** X9.  On a cache miss the frontend is called with the program name
    ["mull-cxx"] first and the source file last, and between them the
    arguments of the file that the loop kept, without ["-c"]. *)
Theorem findAST_arguments (F : Frontend) (point : MutationPoint)
    (d d' : Detector) (ast : option ASTUnit) (sourceFile : string) :
  findAST F point d = Ok (ast, d') ->
  getOriginalValue point = InstructionValue sourceFile ->
  astUnits d !! sourceFile = None ->
  exists argsForFile kept : list string,
    commandLineArguments F d sourceFile = Ok argsForFile /\
    cutCompileOnly argsForFile = Ok kept /\
    ("-c" ∉ kept) /\
    ast = LoadFromCommandLine F ("mull-cxx" :: kept ++ [sourceFile]) /\
    astUnits d' = <[sourceFile := ast]> (astUnits d).
Proof.
  unfold findAST. intros Hfind Hvalue Hmiss. rewrite Hvalue in Hfind.
  destruct (assert _ _); [|discriminate]. cbn in Hfind. rewrite Hmiss in Hfind.
  destruct (commandLineArguments F d sourceFile) as [argsForFile|]; [|discriminate].
  cbn in Hfind. destruct (cutCompileOnly argsForFile) as [kept|] eqn:Hcut;
    [|discriminate].
  cbn in Hfind. injection Hfind as <- <-.
  exists argsForFile, kept. split; [reflexivity|]. split; [assumption|].
  split; [exact (proj1 (cutCompileOnly_bounded _ _ _ (le_n _) Hcut))|].
  split; reflexivity.
Qed.

(** X10.  The answer of [isJunk] is stable: once it has answered for a
    point, it gives the same answer for that point again, whatever the
    frontend would now load, and the detector does not change any more. *)
Theorem isJunk_stable (F F' : Frontend) (point : MutationPoint)
    (d d' : Detector) (junk : bool) :
  isJunk F point d = Ok (junk, d') ->
  isJunk F' point d' = Ok (junk, d').
Proof.
  unfold isJunk. destruct (isNull (getSourceLocation point)) eqn:Hnull.
  { intros [= <- <-]. reflexivity. }
  assert (forall V, isJunkWith V F point (getSourceLocation point) d = Ok (junk, d') ->
                    isJunkWith V F' point (getSourceLocation point) d' = Ok (junk, d'))
    as Hwith.
  { intros V. unfold isJunkWith.
    destruct (findAST F point d) as [[ast d1]|] eqn:Hfind; [|discriminate].
    cbn. intros Hrest.
    assert (d1 = d') as ->.
    { destruct (findFileEntry ast point) as [file|]; [|discriminate].
      cbn in Hrest. destruct ast as [ast|]; [|discriminate].
      destruct file as [file|]; [|discriminate].
      destruct (assert (file_isValid file) _); [|discriminate]. cbn in Hrest.
      destruct (assert (isValid _) _); [|discriminate]. cbn in Hrest.
      destruct (TraverseDecl _ _ _); [|discriminate]. cbn in Hrest.
      injection Hrest as _ <-. reflexivity. }
    assert (findAST F' point d' = Ok (ast, d')) as ->; [|exact Hrest].
    destruct (getOriginalValue point) as [sourceFile|] eqn:Hvalue.
    - exact (proj2 (findAST_hit F F' point point d d' ast sourceFile
                      Hfind Hvalue Hvalue Hnull)).
    - unfold findAST in Hfind |- *. rewrite Hvalue in Hfind |- *.
      destruct (assert _ _); [|discriminate]. cbn in Hfind |- *.
      injection Hfind as <- _. reflexivity. }
  destruct (mutatorKind point); try apply Hwith.
  intros [= <- <-]. reflexivity.
Qed.

End SyntaxTreeCache.

(** ** The constructor, the file entry and the search *)

Section DetectorParts.
Import Clang CXXJunkDetector.

(** X11.  Without a compilation database (the directory of the
    configuration is empty, or loading it fails, which is only written to
    the error log) the detector is built all the same, with an empty
    cache, and the arguments of every source file are the flags of the
    configuration. *)
Theorem CXXJunkDetector_new_without_database (loadFromDirectory : DatabaseLoader)
    (config : JunkDetectionConfig) (F : Frontend) (sourceFile : string) :
  cxxCompDBDirectory config = "" \/
  (exists error, loadFromDirectory (cxxCompDBDirectory config) = inr error) ->
  compdb (CXXJunkDetector_new loadFromDirectory config).1 = None /\
  astUnits (CXXJunkDetector_new loadFromDirectory config).1 = ∅ /\
  commandLineArguments F (CXXJunkDetector_new loadFromDirectory config).1 sourceFile =
    Ok (getCompilationFlags (cxxCompilationFlags config)) /\
  length (CXXJunkDetector_new loadFromDirectory config).2 =
    (if bool_decide (cxxCompDBDirectory config = "") then 0 else 1)%nat.
Proof.
  intros Hnone. unfold CXXJunkDetector_new, getCompilationDatabase.
  case_bool_decide as Hempty.
  - repeat split.
  - destruct Hnone as [?|[error Hload]]; [contradiction|].
    rewrite Hload. repeat split.
Qed.

Lemma firstFileNamed_first (path : string) (files : list FileEntry) :
  match firstFileNamed path files with
  | Some file =>
      exists before after : list FileEntry,
        files = before ++ file :: after /\
        getName file = path /\
        Forall (fun other => getName other <> path) before
  | None => Forall (fun other => getName other <> path) files
  end.
Proof.
  induction files as [|file rest IH]; [constructor|].
  cbn [firstFileNamed]. case_bool_decide as Hname.
  - exists [], rest. split; [reflexivity|]. split; [assumption|constructor].
  - destruct (firstFileNamed path rest) as [found|].
    + destruct IH as (before & after & -> & Hfound & Hbefore).
      exists (file :: before), after. split; [reflexivity|].
      split; [assumption|]. constructor; assumption.
    + constructor; assumption.
Qed.

(** X12.  For a point with a source location, [findFileEntry] returns the
    first file of the source manager whose name is the path of the
    location, character for character, and null exactly when no file has
    that name; it asserts nothing else. *)
Theorem findFileEntry_first (ast : ASTUnit) (point : MutationPoint) :
  isNull (getSourceLocation point) = false ->
  match findFileEntry (Some ast) point with
  | Ok (Some file) =>
      exists before after : list FileEntry,
        fileinfo (getSourceManager ast) = before ++ file :: after /\
        getName file = filePath (getSourceLocation point) /\
        Forall (fun other => getName other <> filePath (getSourceLocation point))
          before
  | Ok None =>
      Forall (fun other => getName other <> filePath (getSourceLocation point))
        (fileinfo (getSourceManager ast))
  | Err _ => False
  end.
Proof.
  intros Hnull. unfold findFileEntry. rewrite Hnull. cbn.
  apply firstFileNamed_first.
Qed.

(** X13.  [smallestSourceRange] returns one of its two arguments, and a
    valid one whenever one of them is valid. *)
Theorem smallestSourceRange_choice (sm : SourceManager) (first second : SourceRange) :
  (smallestSourceRange sm first second = first \/
   smallestSourceRange sm first second = second) /\
  range_isValid (smallestSourceRange sm first second) =
    range_isValid first || range_isValid second.
Proof.
  unfold smallestSourceRange, range_isInvalid.
  destruct (range_isValid first) eqn:Hfirst; cbn.
  - destruct (range_isValid second) eqn:Hsecond; cbn; [|auto].
    destruct (_ <? _); [auto|]. destruct (_ <? _); auto.
  - auto.
Qed.

(** X14.  Of two valid ranges [smallestSourceRange] returns one whose
    length, in unsigned arithmetic, is the smaller of the two lengths, and
    the first of them when the lengths are equal. *)
Theorem smallestSourceRange_shortest (sm : SourceManager) (first second : SourceRange) :
  range_isValid first = true ->
  range_isValid second = true ->
  rangeLength sm (smallestSourceRange sm first second) =
    Z.min (rangeLength sm first) (rangeLength sm second) /\
  (smallestSourceRange sm first second = second <->
   first = second \/ rangeLength sm second < rangeLength sm first).
Proof.
  intros Hfirst Hsecond. unfold smallestSourceRange, range_isInvalid.
  rewrite Hfirst, Hsecond. cbn.
  destruct (rangeLength sm first <? rangeLength sm second) eqn:Hlt.
  - apply Z.ltb_lt in Hlt. split; [lia|]. split.
    + intros ->. lia.
    + intros [->|?]; [reflexivity|lia].
  - apply Z.ltb_ge in Hlt.
    destruct (rangeLength sm second <? rangeLength sm first) eqn:Hgt.
    + apply Z.ltb_lt in Hgt. split; [lia|]. split; auto.
    + apply Z.ltb_ge in Hgt. split; [lia|]. split.
      * intros ->. auto.
      * intros [->|?]; [reflexivity|lia].
Qed.

(** Whether the search finds a range, for a valid location and valid
    ranges. *)
Lemma TraverseDecl_found (kind : MutatorKind) (V : Visitor) (sm : SourceManager)
    (location : Clang.SourceLocation) (nodes : list Stmt) :
  visitorFor kind = Some V ->
  isValid location = true ->
  Forall (fun range => range_isValid range = true) (operatorRanges kind nodes) ->
  exists visitor,
    TraverseDecl V (SearchInstructionVisitor_new sm location) nodes = Ok visitor /\
    (foundMutant visitor = true <->
     exists range, In range (operatorRanges kind nodes) /\
                   containsLocation sm location range = true).
Proof.
  intros HV Hloc Hvalid.
  destruct (visitRanges_tightest sm location Hloc (operatorRanges kind nodes)
              SourceRange_default Hvalid) as [visitor [Hrun Hspec]];
    [discriminate|].
  exists visitor. rewrite (TraverseDecl_visitRanges kind) by assumption.
  split; [exact Hrun|]. cbn in Hspec. unfold foundMutant, foundRange.
  destruct Hspec as [[Hnone Hkeep]|[Hsome Htight]].
  - rewrite Hkeep. split; [discriminate|].
    intros (range & Hin & Hcontains). exfalso.
    assert (In range (candidates sm location (operatorRanges kind nodes))) as Hcand
      by (apply filter_In; auto).
    rewrite Hnone in Hcand. destruct Hcand.
  - split.
    + intros _. destruct Htight as (i & Hi & _).
      apply list_elem_of_lookup_2, list_elem_of_In, filter_In in Hi.
      eauto.
    + intros _. eapply tightestFirst_valid; eassumption.
Qed.

(** X15.  Whether the search finds a range does not depend on the order in
    which the traversal reaches the nodes. *)
Theorem TraverseDecl_any_order (kind : MutatorKind) (V : Visitor)
    (sm : SourceManager) (location : Clang.SourceLocation)
    (nodes nodes' : list Stmt) :
  visitorFor kind = Some V ->
  isValid location = true ->
  Forall (fun range => range_isValid range = true) (operatorRanges kind nodes) ->
  nodes ≡ₚ nodes' ->
  exists visitor visitor',
    TraverseDecl V (SearchInstructionVisitor_new sm location) nodes = Ok visitor /\
    TraverseDecl V (SearchInstructionVisitor_new sm location) nodes' = Ok visitor' /\
    foundMutant visitor' = foundMutant visitor.
Proof.
  intros HV Hloc Hvalid Hperm.
  assert (operatorRanges kind nodes ≡ₚ operatorRanges kind nodes') as Hranges
    by (unfold operatorRanges; rewrite Hperm; reflexivity).
  assert (Forall (fun range => range_isValid range = true) (operatorRanges kind nodes'))
    as Hvalid' by (rewrite <- Hranges; assumption).
  destruct (TraverseDecl_found kind V sm location nodes HV Hloc Hvalid)
    as (visitor & Hrun & Hfound).
  destruct (TraverseDecl_found kind V sm location nodes' HV Hloc Hvalid')
    as (visitor' & Hrun' & Hfound').
  exists visitor, visitor'. split; [assumption|]. split; [assumption|].
  apply eq_true_iff_eq. rewrite Hfound, Hfound'.
  split; intros (range & Hin & Hcontains); exists range; split; try assumption.
  - apply list_elem_of_In. rewrite Hranges. apply list_elem_of_In. assumption.
  - apply list_elem_of_In. rewrite <- Hranges. apply list_elem_of_In. assumption.
Qed.

(** X16.  More syntax never turns a point into junk: a range found in a
    part of the nodes is found in the whole of them. *)
Theorem TraverseDecl_more_nodes (kind : MutatorKind) (V : Visitor)
    (sm : SourceManager) (location : Clang.SourceLocation)
    (before nodes after : list Stmt) (found : SearchInstructionVisitor) :
  visitorFor kind = Some V ->
  isValid location = true ->
  Forall (fun range => range_isValid range = true)
    (operatorRanges kind (before ++ nodes ++ after)) ->
  TraverseDecl V (SearchInstructionVisitor_new sm location) nodes = Ok found ->
  foundMutant found = true ->
  exists visitor,
    TraverseDecl V (SearchInstructionVisitor_new sm location)
      (before ++ nodes ++ after) = Ok visitor /\
    foundMutant visitor = true.
Proof.
  intros HV Hloc Hvalid Hrun Hfound.
  assert (Forall (fun range => range_isValid range = true) (operatorRanges kind nodes))
    as Hpart.
  { unfold operatorRanges in *. rewrite !omap_app in Hvalid.
    apply Forall_app in Hvalid as [_ Hvalid].
    apply Forall_app in Hvalid as [Hvalid _]. assumption. }
  destruct (TraverseDecl_found kind V sm location nodes HV Hloc Hpart)
    as (visitor0 & Hrun0 & Hfound0).
  rewrite Hrun in Hrun0. injection Hrun0 as <-.
  destruct (TraverseDecl_found kind V sm location _ HV Hloc Hvalid)
    as (visitor & Hall & Hfound').
  exists visitor. split; [assumption|]. apply Hfound'.
  destruct (proj1 Hfound0 Hfound) as (range & Hin & Hcontains).
  exists range. split; [|assumption].
  unfold operatorRanges in *. rewrite !omap_app.
  apply in_or_app. right. apply in_or_app. left. assumption.
Qed.

End DetectorParts.

(** ** More on the driver *)

Section DriverParts.
Import Driver.

Context {IR Code Test Function MutationPoint MutationOperator : Type}.
Variable C : @Collaborators IR Code Test Function MutationPoint MutationOperator.

Local Abbreviation State := (@State IR Code Test MutationPoint).
Local Abbreviation Event := (@Event Code Test MutationPoint).
Local Abbreviation ObjectFile := (@ObjectFile Code).

Ltac step_M :=
  unfold mbind, M_bind, bind_M, setCtx, emit, get_M, lift_M, compile,
    InnerCache_insert, mret, M_ret, ret_M; cbn.

Lemma AllButOne_no_entry (One : ModulePtr) (entries : list (ModulePtr * ObjectFile)) :
  Forall (fun entry => entry.1 <> One) entries ->
  omap (fun CachedEntry : ModulePtr * ObjectFile =>
          if decide (One ≠ CachedEntry.1) then Some CachedEntry.2 else None)
       entries = entries.*2.
Proof.
  induction 1 as [|entry rest Hentry _ IH]; [reflexivity|].
  cbn. destruct (decide (One ≠ entry.1)) as [|Heq]; [|exfalso; apply Heq; congruence].
  cbn. f_equal. exact IH.
Qed.

(** X18.  [AllButOne] leaves out one object at most.  For a module that
    has an entry in the cache, the objects it returns and the object of
    that module are together the objects of the cache; for a module that
    has none, it returns all of them. *)
Theorem AllButOne_leaves_out_one (One : ModulePtr) (cache : gmap ModulePtr ObjectFile) :
  match cache !! One with
  | Some object => object :: AllButOne One cache ≡ₚ baselineObjects cache
  | None => AllButOne One cache = baselineObjects cache
  end.
Proof.
  unfold AllButOne, baselineObjects.
  destruct (cache !! One) as [object|] eqn:Hlookup.
  - rewrite <- (map_to_list_delete cache One object Hlookup). cbn.
    destruct (decide (One ≠ One)) as [Hne|_]; [contradiction|].
    constructor. rewrite AllButOne_no_entry; [reflexivity|].
    apply Forall_forall. intros [module object'] Hin%list_elem_of_In%elem_of_map_to_list Heq.
    cbn in Heq. subst. rewrite lookup_delete_eq in Hin. discriminate.
  - apply AllButOne_no_entry.
    apply Forall_forall. intros [module object'] Hin%list_elem_of_In%elem_of_map_to_list Heq.
    cbn in Heq. congruence.
Qed.



Lemma runsOf_app (log1 log2 : list Event) :
  runsOf (log1 ++ log2) = runsOf log1 ++ runsOf log2.
Proof. apply omap_app. Qed.

Lemma compilesOf_app (log1 log2 : list Event) :
  compilesOf (log1 ++ log2) = compilesOf log1 ++ compilesOf log2.
Proof. apply omap_app. Qed.

(** Loading on a new driver: one compilation per path and no run. *)
Lemma loadModules_cacheOfCtx (paths : list string) : forall (irs : list IR) (st : State),
  mapM (loadModuleAtPath C) paths = Some irs ->
  cacheOfCtx C st ->
  exists st' : State,
    loadModules C paths st = Ok (tt, st') /\
    Ctx st' = Ctx st ++ irs /\
    cacheOfCtx C st' /\
    runsOf (Log st') = runsOf (Log st) /\
    compilesOf (Log st') =
      compilesOf (Log st) ++ seq (length (Ctx st)) (length paths).
Proof.
  induction paths as [|path rest IH]; intros irs st Hload Hinv.
  - injection Hload as <-. exists st. cbn. rewrite !app_nil_r. auto.
  - cbn in Hload. destruct (loadModuleAtPath C path) as [ir|] eqn:Hpath;
      [|discriminate].
    cbn in Hload. destruct (mapM (loadModuleAtPath C) rest) as [irs'|] eqn:Hrest;
      [|discriminate].
    injection Hload as <-.
    destruct Hinv as [Hcount Hcache].
    assert (InnerCache st !! length (Ctx st) = None) as Hfresh.
    { rewrite Hcache, (lookup_ge_None_2 (Ctx st)) by lia. reflexivity. }
    cbn [loadModules]. step_M. rewrite Hpath. cbn.
    match goal with |- context [match ?x with Some _ => _ | None => _ end] =>
      replace x with (@None ObjectFile) by (symmetry; exact Hfresh)
    end.
    match goal with |- exists _, loadModules _ _ ?s = _ /\ _ =>
      destruct (IH irs' s eq_refl) as (st' & Hrun & Hctx & Hinv' & Hruns & Hcompiles)
    end.
    { split; cbn.
      - rewrite length_app. cbn. lia.
      - intros module. rewrite Hcount.
        destruct (decide (module = length (Ctx st))) as [->|Hne].
        + rewrite lookup_insert_eq, list_lookup_middle by reflexivity.
          reflexivity.
        + rewrite lookup_insert_ne by congruence. rewrite Hcache.
          destruct (decide (module < length (Ctx st))%nat).
          * rewrite lookup_app_l by assumption. reflexivity.
          * rewrite !lookup_ge_None_2; [reflexivity| |lia].
            rewrite length_app. cbn. lia. }
    exists st'. split; [exact Hrun|]. cbn [Ctx Log] in *.
    split; [rewrite Hctx, <- app_assoc; reflexivity|].
    split; [exact Hinv'|]. split.
    + rewrite Hruns, runsOf_app. cbn. apply app_nil_r.
    + rewrite Hcompiles, compilesOf_app, length_app. cbn.
      rewrite <- app_assoc. cbn. do 3 f_equal. lia.
Qed.

(** [Run] on a new driver, in two phases. *)
Lemma Run_new_phases (paths : list string) (ctx : list IR) :
  loadAll C paths = Some ctx ->
  pointsBehave C ctx ->
  exists (loaded final : State) (events : list Event),
    Run C paths Driver_new = Ok (tt, final) /\
    Ctx loaded = ctx /\
    cacheOfCtx C loaded /\
    runsOf (Log loaded) = [] /\
    compilesOf (Log loaded) = seq 0 (length paths) /\
    InnerCache final = InnerCache loaded /\
    Log final = Log loaded ++ events /\
    runLog C (InnerCache loaded) ctx events.
Proof.
  intros Hload Hbehave.
  destruct (Run_phases C paths ctx Driver_new Hload Hbehave)
    as (loading & events & loaded & final & Hphase & Hrun & Hctx & _ & _
        & Hcache & _ & Hlog & Hshape).
  destruct (loadModules_cacheOfCtx paths ctx (mkState ∅ [] 0 []) Hload)
    as (loaded' & Hload' & _ & Hinv & Hruns & Hcompiles).
  { split; [reflexivity|]. intros module. cbn. rewrite lookup_empty. reflexivity. }
  assert (loaded' = loaded) as ->.
  { unfold mbind, M_bind, bind_M, setCtx in Hphase. cbn in Hphase.
    rewrite Hload' in Hphase. injection Hphase as <-. reflexivity. }
  exists loaded, final, events. auto 10.
Qed.

(** X20.  When [Run] on a new driver is over, the cache holds for every
    loaded module the object compiled from the module as it was loaded,
    and nothing else. *)
Theorem Run_caches_the_baselines (paths : list string) (ctx : list IR) :
  loadAll C paths = Some ctx ->
  pointsBehave C ctx ->
  exists final : State,
    Run C paths Driver_new = Ok (tt, final) /\
    forall module : ModulePtr,
      InnerCache final !! module =
        (fun ir => mkObjectFile module (CompilerModule C ir)) <$> ctx !! module.
Proof.
  intros Hload Hbehave.
  destruct (Run_new_phases paths ctx Hload Hbehave)
    as (loaded & final & events & Hrun & Hctx & [_ Hinv] & _ & _ & Hcache & _).
  exists final. split; [exact Hrun|].
  intros module. rewrite Hcache, Hinv, Hctx. reflexivity.
Qed.

Lemma pointsLog_counts test Testee ObjectFiles points (events : list Event) :
  pointsLog C test Testee ObjectFiles points events ->
  (runsOf events).*1 = (fun _ => test) <$> points /\
  compilesOf events = (fun _ => getParent C Testee) <$> points.
Proof.
  induction 1 as [|ObjectFiles point rest Mutant events _ [IH1 IH2]];
    [split; reflexivity|].
  rewrite runsOf_app, compilesOf_app, fmap_app, IH1, IH2. split; reflexivity.
Qed.

Lemma testLog_counts cache ctx test (events : list Event) :
  testLog C cache ctx test events ->
  (runsOf events).*1 = (fun _ => test) <$> pointsOfTest C ctx test /\
  compilesOf events =
    flat_map (fun Testee => (fun _ => getParent C Testee) <$> pointsOfTestee C ctx Testee)
      (findTestees C ctx test).
Proof.
  intros (parts & Hparts & ->). unfold pointsOfTest.
  induction Hparts as [|Testee part testees parts Hpart _ [IH1 IH2]];
    [split; reflexivity|].
  destruct (pointsLog_counts _ _ _ _ _ Hpart) as [H1 H2].
  cbn [concat flat_map].
  rewrite runsOf_app, compilesOf_app, !fmap_app, IH1, IH2, H1, H2.
  split; reflexivity.
Qed.

Lemma runLog_counts cache ctx (events : list Event) :
  runLog C cache ctx events ->
  (runsOf events).*1 =
    flat_map (fun test => (fun _ => test) <$> pointsOfTest C ctx test)
      (findTests C ctx) /\
  compilesOf events =
    flat_map (fun test =>
      flat_map (fun Testee => (fun _ => getParent C Testee) <$> pointsOfTestee C ctx Testee)
        (findTestees C ctx test))
      (findTests C ctx).
Proof.
  intros (parts & Hparts & ->).
  induction Hparts as [|test part tests parts Hpart _ [IH1 IH2]];
    [split; reflexivity|].
  destruct (testLog_counts _ _ _ _ Hpart) as [H1 H2].
  cbn [concat flat_map].
  rewrite runsOf_app, compilesOf_app, fmap_app, IH1, IH2, H1, H2.
  split; reflexivity.
Qed.

(** X21.  [Run] runs a test once for each mutation point of its testees
    and at no other time: the tests of the runs in the log are, in the
    order of the test finder, each test as often as it has mutation
    points.  A test without mutation points is not run at all. *)
Theorem Run_runs_once_per_point (paths : list string) (ctx : list IR) :
  loadAll C paths = Some ctx ->
  pointsBehave C ctx ->
  exists final : State,
    Run C paths Driver_new = Ok (tt, final) /\
    (runsOf (Log final)).*1 =
      flat_map (fun test => (fun _ => test) <$> pointsOfTest C ctx test)
        (findTests C ctx).
Proof.
  intros Hload Hbehave.
  destruct (Run_new_phases paths ctx Hload Hbehave)
    as (loaded & final & events & Hrun & _ & _ & Hruns & _ & _ & Hlog & Hshape).
  exists final. split; [exact Hrun|].
  rewrite Hlog, runsOf_app, Hruns. cbn [app].
  exact (proj1 (runLog_counts _ _ _ Hshape)).
Qed.

(** X22.  [Run] compiles every module once when it loads it, in the order
    of the bitcode paths, and after that only the parent module of a
    testee, once for each mutation point of the testee. *)
Theorem Run_compiles_parents_only (paths : list string) (ctx : list IR) :
  loadAll C paths = Some ctx ->
  pointsBehave C ctx ->
  exists final : State,
    Run C paths Driver_new = Ok (tt, final) /\
    compilesOf (Log final) =
      seq 0 (length paths) ++
      flat_map (fun test =>
        flat_map (fun Testee =>
          (fun _ => getParent C Testee) <$> pointsOfTestee C ctx Testee)
          (findTestees C ctx test))
        (findTests C ctx).
Proof.
  intros Hload Hbehave.
  destruct (Run_new_phases paths ctx Hload Hbehave)
    as (loaded & final & events & Hrun & _ & _ & _ & Hcompiles & _ & Hlog & Hshape).
  exists final. split; [exact Hrun|].
  rewrite Hlog, compilesOf_app, Hcompiles. f_equal.
  exact (proj2 (runLog_counts _ _ _ Hshape)).
Qed.

(** X23.  For the first mutation point of a testee the test is run on
    what [AllButOne] returns for the parent of the testee and one object
    more, the object compiled while that point was applied. *)
Theorem forTestee_first_run (test : Test) (Testee : Function) (st : State)
    (point : MutationPoint) (rest : list MutationPoint) :
  findMutationPoints C (Ctx st) [MutOp C] Testee = point :: rest ->
  Forall (pointBehaves C (Ctx st) Testee) (point :: rest) ->
  exists (Mutant : ObjectFile) (later : list Event) (st' : State),
    forTestee C [MutOp C] test Testee st = Ok (tt, st') /\
    Log st' =
      Log st ++
      [ Applied point; Compiled (getParent C Testee) Mutant; Reverted point;
        RanTest test (AllButOne (getParent C Testee) (InnerCache st) ++ [Mutant]) ]
      ++ later.
Proof.
  intros Hpoints Hbehave.
  destruct (forMutationPoints_log C test Testee (point :: rest)
              (AllButOne (getParent C Testee) (InnerCache st)) st Hbehave)
    as (events & st' & Hrun & _ & _ & Hlog & Hshape).
  inversion Hshape as [|? ? ? Mutant later Hlater]; subst.
  exists Mutant, later, st'. split.
  - unfold forTestee. step_M. rewrite Hpoints. exact Hrun.
  - rewrite Hlog. reflexivity.
Qed.

Lemma pointsLog_prefix test Testee ObjectFiles points (events : list Event) :
  pointsLog C test Testee ObjectFiles points events ->
  forall test' objects, In (RanTest test' objects) events ->
  test' = test /\
  ObjectFiles `prefix_of` objects /\
  (length ObjectFiles < length objects)%nat.
Proof.
  induction 1 as [|ObjectFiles point rest Mutant events _ IH];
    intros test' objects Hin; [destruct Hin|].
  cbn in Hin. destruct Hin as [|[|[|[Hrun|Hin]]]]; try discriminate.
  - injection Hrun as <- <-. split; [reflexivity|].
    split; [apply prefix_app_r; reflexivity|]. rewrite length_app. cbn. lia.
  - destruct (IH test' objects Hin) as (-> & Hprefix & Hlength).
    split; [reflexivity|]. split; [eapply prefix_app_l; eassumption|].
    rewrite length_app in Hlength. lia.
Qed.

Lemma Forall2_In_r {A B} (R : A -> B -> Prop) (xs : list A) (ys : list B) (y : B) :
  Forall2 R xs ys -> In y ys -> exists x, In x xs /\ R x y.
Proof.
  induction 1 as [|x' y' xs ys Hxy _ IH]; intros Hin; [destruct Hin|].
  destruct Hin as [<-|Hin].
  - exists x'. split; [left; reflexivity|exact Hxy].
  - destruct (IH Hin) as (x & Hx & HR). exists x. split; [right; exact Hx|exact HR].
Qed.

Lemma In_RanTest_runsOf (log : list Event) test objects :
  In (RanTest test objects) log -> In (test, objects) (runsOf log).
Proof.
  intros Hin. apply list_elem_of_In, list_elem_of_omap.
  exists (RanTest test objects). split; [apply list_elem_of_In; exact Hin|reflexivity].
Qed.

(** X24.  Every run of a test that [Run] makes is for a testee of that
    test, on a list of objects that begins with what [AllButOne] returns
    for the parent of the testee (the cached object of every other
    module) and has at least one object more. *)
Theorem Run_links_the_other_baselines (paths : list string) (ctx : list IR) :
  loadAll C paths = Some ctx ->
  pointsBehave C ctx ->
  exists final : State,
    Run C paths Driver_new = Ok (tt, final) /\
    forall test objects,
      In (RanTest test objects) (Log final) ->
      exists Testee : Function,
        In test (findTests C ctx) /\
        In Testee (findTestees C ctx test) /\
        AllButOne (getParent C Testee) (InnerCache final) `prefix_of` objects /\
        (length (AllButOne (getParent C Testee) (InnerCache final))
         < length objects)%nat.
Proof.
  intros Hload Hbehave.
  destruct (Run_new_phases paths ctx Hload Hbehave)
    as (loaded & final & events & Hrun & _ & _ & Hruns & _ & Hcache & Hlog & Hshape).
  exists final. split; [exact Hrun|].
  intros test objects Hin. rewrite Hlog in Hin.
  apply in_app_or in Hin as [Hin|Hin].
  { apply In_RanTest_runsOf in Hin. rewrite Hruns in Hin. destruct Hin. }
  destruct Hshape as (parts & Hparts & ->).
  apply in_concat in Hin as (part & Hpart & Hin).
  destruct (Forall2_In_r _ _ _ _ Hparts Hpart)
    as (test0 & Htest & (parts' & Hparts' & ->)).
  apply in_concat in Hin as (part' & Hpart' & Hin).
  destruct (Forall2_In_r _ _ _ _ Hparts' Hpart') as (Testee & Htestee & Hlog').
  destruct (pointsLog_prefix _ _ _ _ _ Hlog' _ _ Hin) as (-> & Hprefix & Hlength).
  exists Testee. rewrite Hcache. auto.
Qed.

End DriverParts.

(** ** Instances of the further properties *)

Section FurtherInstances.
Import Clang CXXJunkDetector Driver SimpleTest.

Ltac no_compile_only :=
  repeat (apply not_elem_of_cons; split; [discriminate|]); apply not_elem_of_nil.

Lemma getCompilationFlags_joinWithBlanks_witness :
  getCompilationFlags (joinWithBlanks ["-I"; "include"; "-DNDEBUG"]) =
  ["-I"; "include"; "-DNDEBUG"].
Proof.
  apply (getCompilationFlags_joinWithBlanks ["-I"; "include"; "-DNDEBUG"]).
  repeat constructor; discriminate.
Defined.

Lemma cutCompileOnly_sublist_witness :
  ("-c" ∉ ["-I"; "inc"; "foo.o"]) /\
  sublist ["-I"; "inc"; "foo.o"] ["-I"; "inc"; "-c"; "foo.cpp"; "-o"; "foo.o"].
Proof.
  apply (cutCompileOnly_sublist ["-I"; "inc"; "-c"; "foo.cpp"; "-o"; "foo.o"]
           ["-I"; "inc"; "foo.o"]).
  vm_compute; reflexivity.
Defined.

Lemma cutCompileOnly_leaves_out_three_witness :
  cutCompileOnly (["-I"; "inc"] ++ "-c" :: "foo.cpp" :: "-o" :: ["foo.o"]) =
  (fun kept => ["-I"; "inc"] ++ kept) <$> cutCompileOnly ["foo.o"].
Proof.
  apply (cutCompileOnly_leaves_out_three ["-I"; "inc"] ["foo.o"] "foo.cpp" "-o").
  no_compile_only.
Defined.

Lemma cutCompileOnly_past_the_end_witness :
  cutCompileOnly (["clang"; "-I"; "inc"] ++ ["-c"]) =
    Err (UndefinedBehaviour "iterator incremented past end()") /\
  cutCompileOnly (["clang"; "-I"; "inc"] ++ ["-c"; "foo.cpp"]) =
    Err (UndefinedBehaviour "iterator incremented past end()").
Proof.
  apply (cutCompileOnly_past_the_end ["clang"; "-I"; "inc"] "foo.cpp").
  no_compile_only.
Defined.

Lemma findAST_cached_witness :
  astUnits detectorWithSum !! "sum.c" = Some (Some sumAST) /\
  findAST frontend macroPoint detectorWithSum = Ok (Some sumAST, detectorWithSum).
Proof.
  apply (findAST_cached frontend frontend additionPoint macroPoint detector
           detectorWithSum (Some sumAST) "sum.c").
  - reflexivity.
  - reflexivity.
  - reflexivity.
  - reflexivity.
Defined.

Lemma findAST_frame_witness :
  compdb detectorWithSum = compdb detector /\
  compilationFlags detectorWithSum = compilationFlags detector /\
  forall other : string,
    getOriginalValue additionPoint <> InstructionValue other ->
    astUnits detectorWithSum !! other = astUnits detector !! other.
Proof.
  apply (findAST_frame frontend additionPoint detector detectorWithSum (Some sumAST)).
  reflexivity.
Defined.

Lemma findAST_arguments_witness :
  exists argsForFile kept : list string,
    commandLineArguments frontend detector "sum.c" = Ok argsForFile /\
    cutCompileOnly argsForFile = Ok kept /\
    ("-c" ∉ kept) /\
    Some sumAST = LoadFromCommandLine frontend ("mull-cxx" :: kept ++ ["sum.c"]) /\
    astUnits detectorWithSum = <["sum.c" := Some sumAST]> (astUnits detector).
Proof.
  apply (findAST_arguments frontend additionPoint detector detectorWithSum
           (Some sumAST) "sum.c").
  - reflexivity.
  - reflexivity.
  - reflexivity.
Defined.

Lemma isJunk_stable_witness :
  isJunk frontend additionPoint detectorWithSum = Ok (false, detectorWithSum).
Proof.
  apply (isJunk_stable frontend frontend additionPoint detector detectorWithSum false).
  reflexivity.
Defined.

Lemma CXXJunkDetector_new_without_database_witness :
  compdb (CXXJunkDetector_new (fun _ => inr "no database")
            (mkJunkDetectionConfig "/build" "-I include")).1 = None /\
  astUnits (CXXJunkDetector_new (fun _ => inr "no database")
              (mkJunkDetectionConfig "/build" "-I include")).1 = ∅ /\
  commandLineArguments frontend
    (CXXJunkDetector_new (fun _ => inr "no database")
       (mkJunkDetectionConfig "/build" "-I include")).1 "sum.c" =
    Ok (getCompilationFlags "-I include") /\
  length (CXXJunkDetector_new (fun _ => inr "no database")
            (mkJunkDetectionConfig "/build" "-I include")).2 = 1%nat.
Proof.
  apply (CXXJunkDetector_new_without_database (fun _ => inr "no database")
           (mkJunkDetectionConfig "/build" "-I include") frontend "sum.c").
  right. exists "no database". reflexivity.
Defined.

Lemma findFileEntry_first_witness :
  match findFileEntry (Some sumAST) additionPoint with
  | Ok (Some file) =>
      exists before after : list FileEntry,
        fileinfo (getSourceManager sumAST) = before ++ file :: after /\
        getName file = filePath (getSourceLocation additionPoint) /\
        Forall (fun other => getName other <> filePath (getSourceLocation additionPoint))
          before
  | Ok None =>
      Forall (fun other => getName other <> filePath (getSourceLocation additionPoint))
        (fileinfo (getSourceManager sumAST))
  | Err _ => False
  end.
Proof.
  apply (findFileEntry_first sumAST additionPoint).
  vm_compute; reflexivity.
Defined.

Lemma smallestSourceRange_shortest_witness :
  rangeLength sumSourceManager
    (smallestSourceRange sumSourceManager (span 105 120) (span 110 115)) =
    Z.min (rangeLength sumSourceManager (span 105 120))
      (rangeLength sumSourceManager (span 110 115)) /\
  (smallestSourceRange sumSourceManager (span 105 120) (span 110 115) = span 110 115 <->
   span 105 120 = span 110 115 \/
   rangeLength sumSourceManager (span 110 115)
   < rangeLength sumSourceManager (span 105 120)).
Proof.
  apply (smallestSourceRange_shortest sumSourceManager (span 105 120) (span 110 115)).
  - vm_compute; reflexivity.
  - vm_compute; reflexivity.
Defined.

Lemma TraverseDecl_any_order_witness :
  exists visitor visitor',
    TraverseDecl MathAddVisitor
      (SearchInstructionVisitor_new sumSourceManager (mkSourceLocation 112))
      [BinaryOperator BO_Add (span 105 120); UnaryOperator UO_PostInc (span 108 113)]
      = Ok visitor /\
    TraverseDecl MathAddVisitor
      (SearchInstructionVisitor_new sumSourceManager (mkSourceLocation 112))
      [UnaryOperator UO_PostInc (span 108 113); BinaryOperator BO_Add (span 105 120)]
      = Ok visitor' /\
    foundMutant visitor' = foundMutant visitor.
Proof.
  apply (TraverseDecl_any_order MathAddMutator MathAddVisitor sumSourceManager
           (mkSourceLocation 112)).
  - reflexivity.
  - reflexivity.
  - repeat constructor.
  - apply perm_swap.
Defined.

Lemma TraverseDecl_more_nodes_witness :
  exists visitor,
    TraverseDecl MathAddVisitor
      (SearchInstructionVisitor_new sumSourceManager (mkSourceLocation 112))
      ([OtherStmt] ++ [BinaryOperator BO_Add (span 110 115)]
       ++ [UnaryOperator UO_PostInc (span 301 305)]) = Ok visitor /\
    foundMutant visitor = true.
Proof.
  apply (TraverseDecl_more_nodes MathAddMutator MathAddVisitor sumSourceManager
           (mkSourceLocation 112) [OtherStmt] [BinaryOperator BO_Add (span 110 115)]
           [UnaryOperator UO_PostInc (span 301 305)]
           (mkSearchInstructionVisitor sumSourceManager (mkSourceLocation 112)
              (span 110 115))).
  - reflexivity.
  - reflexivity.
  - repeat constructor.
  - reflexivity.
  - reflexivity.
Defined.


Lemma Run_caches_the_baselines_witness :
  exists final : @State (list Instruction) (list Instruction) string MutationPoint,
    Run collaborators ["foo"; "bar"] Driver_new = Ok (tt, final) /\
    forall module : ModulePtr,
      InnerCache final !! module =
        (fun ir => mkObjectFile module (CompilerModule collaborators ir))
          <$> fooBar !! module.
Proof.
  apply (Run_caches_the_baselines collaborators ["foo"; "bar"] fooBar).
  - vm_compute; reflexivity.
  - repeat constructor; eexists; vm_compute; reflexivity.
Defined.

Lemma Run_runs_once_per_point_witness :
  exists final : @State (list Instruction) (list Instruction) string MutationPoint,
    Run collaborators ["foo"; "bar"] Driver_new = Ok (tt, final) /\
    (runsOf (Log final)).*1 =
      flat_map (fun test => (fun _ => test) <$> pointsOfTest collaborators fooBar test)
        (findTests collaborators fooBar).
Proof.
  apply (Run_runs_once_per_point collaborators ["foo"; "bar"] fooBar).
  - vm_compute; reflexivity.
  - repeat constructor; eexists; vm_compute; reflexivity.
Defined.

Lemma Run_compiles_parents_only_witness :
  exists final : @State (list Instruction) (list Instruction) string MutationPoint,
    Run collaborators ["foo"; "bar"] Driver_new = Ok (tt, final) /\
    compilesOf (Log final) =
      seq 0 (length ["foo"; "bar"]) ++
      flat_map (fun test =>
        flat_map (fun Testee =>
          (fun _ => getParent collaborators Testee)
            <$> pointsOfTestee collaborators fooBar Testee)
          (findTestees collaborators fooBar test))
        (findTests collaborators fooBar).
Proof.
  apply (Run_compiles_parents_only collaborators ["foo"; "bar"] fooBar).
  - vm_compute; reflexivity.
  - repeat constructor; eexists; vm_compute; reflexivity.
Defined.

Lemma forTestee_first_run_witness :
  exists (Mutant : @ObjectFile (list Instruction))
         (later : list (@Event (list Instruction) string MutationPoint))
         (st' : @State (list Instruction) (list Instruction) string MutationPoint),
    forTestee collaborators [MutOp collaborators] "test_main" (mkFunction "sum" 1)
      (mkState {[ 0%nat := fooObject; 1%nat := barObject ]} fooBar 2 []) = Ok (tt, st') /\
    Log st' =
      [] ++
      [ Applied firstAdd; Compiled 1%nat Mutant; Reverted firstAdd;
        RanTest "test_main"
          (AllButOne 1%nat {[ 0%nat := fooObject; 1%nat := barObject ]} ++ [Mutant]) ]
      ++ later.
Proof.
  refine (forTestee_first_run collaborators "test_main" (mkFunction "sum" 1)
            (mkState {[ 0%nat := fooObject; 1%nat := barObject ]} fooBar 2 [])
            firstAdd [secondAdd] _ _).
  - vm_compute; reflexivity.
  - repeat constructor; eexists; vm_compute; reflexivity.
Defined.

Lemma Run_links_the_other_baselines_witness :
  exists final : @State (list Instruction) (list Instruction) string MutationPoint,
    Run collaborators ["foo"; "bar"] Driver_new = Ok (tt, final) /\
    forall test objects,
      In (RanTest test objects) (Log final) ->
      exists Testee : Function,
        In test (findTests collaborators fooBar) /\
        In Testee (findTestees collaborators fooBar test) /\
        AllButOne (getParent collaborators Testee) (InnerCache final)
          `prefix_of` objects /\
        (length (AllButOne (getParent collaborators Testee) (InnerCache final))
         < length objects)%nat.
Proof.
  apply (Run_links_the_other_baselines collaborators ["foo"; "bar"] fooBar).
  - vm_compute; reflexivity.
  - repeat constructor; eexists; vm_compute; reflexivity.
Defined.

End FurtherInstances.
